(** * openapi-mcp: the tool generator, the multi-spec registry and the
    request dispatcher, embedded from the Python sources

    - [src/utils/openapi_utils.py]  : [_resolve_ref], [_extract_example_text]
    - [src/example_generator.py]    : [generate_example_from_schema]
    - [src/tool_generator.py]       : [extract_parameters], [extract_body],
                                      [generate_tool_from_operation]
    - [src/utils/env_utils.py]      : [get_env_var]
    - [src/utils/auth.py]           : [get_basic_auth_header],
                                      [get_bearer_auth_header], [get_auth_header]
    - [src/utils/config.py]         : [Config] ([_get], the getters,
                                      [openapi_specs] and its [to_list])
    - [src/tool_caller.py]          : [OpenAPIToolCaller] ([__init__],
                                      [_add_tools_from_spec], [call_tool],
                                      [create_headers])

    Python values are JSON trees; a Python [dict] keeps its insertion order
    and is an association list here.  Exceptions are an explicit result
    type.  The OpenAPI document is a mutable object shared between the
    loader, the generator and the registry: it is threaded as state, and a
    reference into it is a path of keys.  The four maps of the registry are
    finite maps keyed by the tool name. *)

From Stdlib Require Import ZArith Ascii String List Bool Lia DecimalString.
From Stdlib Require Import Floats.PrimFloat.
From stdpp Require Import base option list strings gmap fin_maps.

Set Warnings "-register-all".
Local Open Scope Z_scope.
Local Open Scope stdpp_scope.

(* ===================================================================== *)
(** ** Exceptions and results *)
(* ===================================================================== *)

(** The exception classes the code raises itself or lets through.  All of
    them derive from [Exception], so an [except Exception] clause catches
    each one. *)
Inductive exn : Type :=
| ValueError (msg : string)
| KeyError (key : string)
| TypeError (msg : string)
| AttributeError (msg : string)
| StopIteration
| RecursionError
| RuntimeError (msg : string)
| ValidationError (msg : string)      (* pydantic, from [Tool(...)] *)
| HTTPError (status : Z) (body : string)  (* requests, from [raise_for_status] *)
| TransportError (msg : string).      (* requests, from [prepare_request]/[send] *)

Inductive res (A : Type) : Type :=
| Ok (a : A)
| Raise (e : exn).
Arguments Ok {A} a.
Arguments Raise {A} e.

#[global] Instance res_ret : MRet res := fun _ a => Ok a.
#[global] Instance res_bind : MBind res := fun _ _ k m =>
  match m with
  | Ok a => k a
  | Raise e => Raise e
  end.

#[global] Instance res_fmap : FMap res := fun _ _ f m =>
  match m with
  | Ok a => Ok (f a)
  | Raise e => Raise e
  end.

Definition is_ok {A} (r : res A) : bool :=
  match r with Ok _ => true | Raise _ => false end.

(** [for x in l: acc = f(acc, x)], stopping at the first exception. *)
Fixpoint rfold {A B} (f : A -> B -> res A) (l : list B) (a : A) : res A :=
  match l with
  | [] => Ok a
  | x :: l' => a' ← f a x; rfold f l' a'
  end.

(* ===================================================================== *)
(** ** Python strings (byte strings) *)
(* ===================================================================== *)

Module PyStr.

Definition lower_ascii (c : ascii) : ascii :=
  let n := nat_of_ascii c in
  if ((65 <=? n) && (n <=? 90))%nat then ascii_of_nat (n + 32) else c.

Definition upper_ascii (c : ascii) : ascii :=
  let n := nat_of_ascii c in
  if ((97 <=? n) && (n <=? 122))%nat then ascii_of_nat (n - 32) else c.

Fixpoint map_chars (f : ascii -> ascii) (s : string) : string :=
  match s with
  | EmptyString => EmptyString
  | String c s' => String (f c) (map_chars f s')
  end.

(** [s.lower()] and [s.upper()] *)
Definition lower : string -> string := map_chars lower_ascii.
Definition upper : string -> string := map_chars upper_ascii.

(** [s.startswith(p)] *)
Definition startswith (p s : string) : bool := String.prefix p s.

Fixpoint mem_char (c : ascii) (cs : string) : bool :=
  match cs with
  | EmptyString => false
  | String d cs' => Ascii.eqb c d || mem_char c cs'
  end.

(** [s.lstrip(cs)], [s.rstrip(cs)], [s.strip(cs)]: [cs] is a set of
    characters. *)
Fixpoint lstrip (cs s : string) : string :=
  match s with
  | EmptyString => EmptyString
  | String c s' => if mem_char c cs then lstrip cs s' else s
  end.

Definition rstrip (cs s : string) : string :=
  String.rev (lstrip cs (String.rev s)).

Definition strip (cs s : string) : string := rstrip cs (lstrip cs s).

(** [s.split(sep)] for a one-character separator. *)
Fixpoint split_go (sep : ascii) (cur : string) (s : string) : list string :=
  match s with
  | EmptyString => [String.rev cur]
  | String c s' =>
      if Ascii.eqb c sep then String.rev cur :: split_go sep EmptyString s'
      else split_go sep (String c cur) s'
  end.
Definition split (sep : ascii) (s : string) : list string :=
  split_go sep EmptyString s.

(** [s.replace(old, new)].  [skip] counts the characters of a matched
    occurrence of [old] that are still to be dropped. *)
Fixpoint replace_go (old new : string) (skip : nat) (s : string) : string :=
  match s with
  | EmptyString => EmptyString
  | String c s' =>
      match skip with
      | S k => replace_go old new k s'
      | O =>
          if String.prefix old s
          then new +:+ replace_go old new (String.length old - 1) s'
          else String c (replace_go old new O s')
      end
  end.

Fixpoint intersperse (new s : string) : string :=
  match s with
  | EmptyString => new
  | String c s' => new +:+ String c (intersperse new s')
  end.

Definition replace (old new s : string) : string :=
  match old with
  | EmptyString => intersperse new s
  | _ => replace_go old new O s
  end.

(** [x in s] for strings: substring test. *)
Fixpoint contains (sub s : string) : bool :=
  String.prefix sub s ||
  match s with
  | EmptyString => false
  | String _ s' => contains sub s'
  end.

Fixpoint chars (s : string) : list string :=
  match s with
  | EmptyString => []
  | String c s' => String c EmptyString :: chars s'
  end.

(** [os.path.isabs], [os.path.join] and [os.path.basename] of
    [posixpath]. *)
Definition isabs (p : string) : bool := startswith "/" p.

Definition endswith_slash (p : string) : bool :=
  match String.rev p with
  | String c _ => Ascii.eqb c "/"%char
  | EmptyString => false
  end.

Definition path_join (a b : string) : string :=
  if isabs b then b
  else if String.eqb a "" || endswith_slash a then a +:+ b
  else a +:+ "/" +:+ b.

Definition basename (p : string) : string :=
  List.last (split "/"%char p) EmptyString.

End PyStr.

(* ===================================================================== *)
(** ** Python values: JSON trees *)
(* ===================================================================== *)

Inductive json : Type :=
| JNull
| JBool (b : bool)
| JInt (n : Z)
| JFloat (f : float)
| JStr (s : string)
| JList (l : list json)
| JDict (d : list (string * json)).

(** A Python [dict] with string keys, in insertion order. *)
Abbreviation pydict := (list (string * json)).

Module PyDict.
Section Dict.
Context {V : Type}.

(** [d.get(k)] *)
Fixpoint get (k : string) (d : list (string * V)) : option V :=
  match d with
  | [] => None
  | (k', v) :: d' => if String.eqb k k' then Some v else get k d'
  end.

(** [k in d] *)
Definition has (k : string) (d : list (string * V)) : bool :=
  match get k d with Some _ => true | None => false end.

(** [d[k] = v]: an existing key keeps its position, a new key goes
    last. *)
Fixpoint set (k : string) (v : V) (d : list (string * V)) : list (string * V) :=
  match d with
  | [] => [(k, v)]
  | (k', v') :: d' =>
      if String.eqb k k' then (k, v) :: d' else (k', v') :: set k v d'
  end.

(** [del d[k]] *)
Fixpoint del (k : string) (d : list (string * V)) : list (string * V) :=
  match d with
  | [] => []
  | (k', v') :: d' =>
      if String.eqb k k' then d' else (k', v') :: del k d'
  end.

(** [{**a, **b}] *)
Definition merge (a b : list (string * V)) : list (string * V) :=
  fold_left (fun acc kv => set (fst kv) (snd kv) acc) b a.

Definition keys (d : list (string * V)) : list string := map fst d.
Definition values (d : list (string * V)) : list V := map snd d.
End Dict.
End PyDict.

(** Truth value of a Python object: [if v:], [not v], [v or w]. *)
Definition truthy (v : json) : bool :=
  match v with
  | JNull => false
  | JBool b => b
  | JInt n => negb (n =? 0)
  | JFloat f => negb (PrimFloat.eqb f 0%float)
  | JStr s => negb (String.eqb s "")
  | JList l => match l with [] => false | _ => true end
  | JDict d => match d with [] => false | _ => true end
  end.

Definition truthy_opt (o : option json) : bool :=
  match o with Some v => truthy v | None => false end.

(** [a or b] *)
Definition py_or (a b : json) : json := if truthy a then a else b.

(** [v == "literal"] *)
Definition is_str (v : json) (s : string) : bool :=
  match v with JStr s' => String.eqb s' s | _ => false end.

(** [type(v)] as an f-string prints it. *)
Definition py_type_repr (v : json) : string :=
  match v with
  | JNull => "<class 'NoneType'>"
  | JBool _ => "<class 'bool'>"
  | JInt _ => "<class 'int'>"
  | JFloat _ => "<class 'float'>"
  | JStr _ => "<class 'str'>"
  | JList _ => "<class 'list'>"
  | JDict _ => "<class 'dict'>"
  end.

(** [v.get(k)] and [v.get(k, default)]: only a dict has [get]. *)
Definition py_get (v : json) (k : string) : res (option json) :=
  match v with
  | JDict d => Ok (PyDict.get k d)
  | _ => Raise (AttributeError (py_type_repr v +:+ " object has no attribute 'get'"))
  end.

Definition py_get_default (v : json) (k : string) (dflt : json) : res json :=
  match v with
  | JDict d => Ok (default dflt (PyDict.get k d))
  | _ => Raise (AttributeError (py_type_repr v +:+ " object has no attribute 'get'"))
  end.

(** [v[k]] for a string [k]: a missing key is a [KeyError], anything but a
    dict cannot be indexed by a string. *)
Definition py_getitem (v : json) (k : string) : res json :=
  match v with
  | JDict d =>
      match PyDict.get k d with
      | Some x => Ok x
      | None => Raise (KeyError k)
      end
  | _ => Raise (TypeError (py_type_repr v +:+ " cannot be indexed by a string"))
  end.

(** [for x in v]: a list yields its elements, a dict its keys, a string
    its characters; nothing else is iterable. *)
Definition py_iter (v : json) : res (list json) :=
  match v with
  | JList l => Ok l
  | JDict d => Ok (map JStr (PyDict.keys d))
  | JStr s => Ok (map JStr (PyStr.chars s))
  | _ => Raise (TypeError (py_type_repr v +:+ " object is not iterable"))
  end.

(** [v.items()] *)
Definition py_items (v : json) : res pydict :=
  match v with
  | JDict d => Ok d
  | _ => Raise (AttributeError (py_type_repr v +:+ " object has no attribute 'items'"))
  end.

(** A schema node is used as a mapping ([k in node], [node[k]],
    [node.get(k)]).  On a node that is no dict one of these raises
    [TypeError] or [AttributeError]; the model reports [TypeError]. *)
Definition as_mapping (v : json) : res pydict :=
  match v with
  | JDict d => Ok d
  | _ => Raise (TypeError (py_type_repr v +:+ " is not a mapping"))
  end.

(** The node a path of keys leads to, and its replacement in place. *)
Fixpoint get_path (p : list string) (doc : json) : option json :=
  match p with
  | [] => Some doc
  | k :: p' =>
      match doc with
      | JDict d => match PyDict.get k d with
                   | Some x => get_path p' x
                   | None => None
                   end
      | _ => None
      end
  end.

Fixpoint set_path (p : list string) (new : json) (doc : json) : json :=
  match p with
  | [] => new
  | k :: p' =>
      match doc with
      | JDict d =>
          match PyDict.get k d with
          | Some x => JDict (PyDict.set k (set_path p' new x) d)
          | None => doc
          end
      | _ => doc
      end
  end.

(* ===================================================================== *)
(** ** What the code takes from Python and its libraries *)
(* ===================================================================== *)

(** An HTTP response as [requests] hands it back: [json_body] is the
    outcome of [resp.json()], which raises when the body is no JSON. *)
Record Response : Type := {
  status_code : Z;
  text : string;
  json_body : res json;
}.

(** One part of the [files] argument of [requests.Request]:
    [("attachment", (basename, file_obj, mime_type))], the file object
    being the handle number that [open] returned. *)
Record FilePart : Type := {
  fp_name : string;
  fp_handle : nat;
  fp_mime : string;
}.

(** The keyword arguments of [requests.Request].  A key that is absent and
    a key given as [None] are the same request. *)
Record RequestKwargs : Type := {
  rq_method : string;
  rq_url : string;
  rq_params : option pydict;
  rq_headers : pydict;
  rq_json : option json;
  rq_data : option json;
  rq_files : list FilePart;
}.

(** Builtins, the standard library, [requests], the loader and the
    configuration singleton. *)
Record PyEnv : Type := {
  py_str : json -> string;                      (* [str(v)] of a value that is no string *)
  recursion_limit : nat;                        (* frames left for a recursive call *)
  json_dumps : json -> string;                  (* [json.dumps(v)] *)
  b64encode : string -> string;                 (* [base64.b64encode] *)
  load_openapi_spec : string -> res json;       (* prance [ResolvingParser] *)
  config_base_url : string -> option string;    (* [config.get_openapi_base_url] *)
  config_authentication : string -> option json;(* [config.get_openapi_authentication] *)
  os_environ : string -> option string;         (* [os.environ] *)
  getcwd : string;                              (* [os.getcwd()] *)
  guess_type : string -> option string;         (* [mimetypes.guess_type(..)[0]] *)
  can_open : string -> bool;                    (* does [open(path, "rb")] succeed *)
  prepare_request : RequestKwargs -> res RequestKwargs; (* [Session.prepare_request] *)
  send : RequestKwargs -> res Response;         (* [Session.send] *)
}.

(** [f"{v}"] and [str(v)]: a string is printed as it is. *)
Definition fmt (E : PyEnv) (v : json) : string :=
  match v with
  | JStr s => s
  | _ => py_str E v
  end.

(* ===================================================================== *)
(** ** src/utils/openapi_utils.py *)
(* ===================================================================== *)

(** [_resolve_ref(spec, ref)] *)
Definition _resolve_ref (spec : json) (ref : json) : res json :=
  match ref with
  | JStr r =>
      if negb (PyStr.startswith "#/" r)
      then Raise (ValueError ("Only local refs are supported, got: " +:+ r))
      else
        let parts := PyStr.split "/"%char (PyStr.lstrip "#/" r) in
        rfold py_getitem parts spec
  | _ => Raise (AttributeError (py_type_repr ref +:+ " object has no attribute 'startswith'"))
  end.

(** The loop over [schema["examples"].values()] shared by
    [_extract_example_text] and [generate_example_from_schema]: the first
    entry that is a dict with a ["value"], or a string. *)
Fixpoint first_example (exs : list json) : option json :=
  match exs with
  | [] => None
  | ex :: exs' =>
      match ex with
      | JDict d =>
          match PyDict.get "value" d with
          | Some v => Some v
          | None => first_example exs'
          end
      | JStr s => Some (JStr s)
      | _ => first_example exs'
      end
  end.

(** ["examples" in schema and isinstance(schema["examples"], dict)], then the
    loop. *)
Definition examples_entry (schema : pydict) : option json :=
  match PyDict.get "examples" schema with
  | Some (JDict exs) => first_example (PyDict.values exs)
  | _ => None
  end.

(** [_extract_example_text(schema)] *)
Definition _extract_example_text (E : PyEnv) (schema : pydict) : string :=
  match PyDict.get "example" schema with
  | Some ex => " Example: " +:+ fmt E ex
  | None =>
      match examples_entry schema with
      | Some v => " Example: " +:+ fmt E v
      | None => ""
      end
  end.

(* ===================================================================== *)
(** ** src/example_generator.py *)
(* ===================================================================== *)

(** The [string] arm: by [format]. *)
Definition string_example (schema : pydict) : json :=
  match PyDict.get "format" schema with
  | Some fmt =>
      if is_str fmt "date-time" then JStr "2023-01-01T00:00:00Z"
      else if is_str fmt "date" then JStr "2023-01-01"
      else if is_str fmt "uuid" then JStr "123e4567-e89b-12d3-a456-426614174000"
      else if is_str fmt "email" then JStr "user@example.com"
      else JStr "string"
  | None => JStr "string"
  end.

(** ["enum" in schema and isinstance(schema["enum"], list) and schema["enum"]] *)
Definition enum_head (schema : pydict) : option json :=
  match PyDict.get "enum" schema with
  | Some (JList (x :: _)) => Some x
  | _ => None
  end.

(** [generate_example_from_schema(spec, schema)].  The function calls itself
    on every property and on [items]; nothing bounds the nesting (a [$ref]
    may lead back to an enclosing node), so [depth] is the number of frames
    left before the interpreter raises [RecursionError]. *)
Fixpoint generate_example_from_schema (depth : nat) (spec : json) (schema : json)
  : res json :=
  match depth with
  | O => Raise RecursionError
  | S depth' =>
      schema0 ← as_mapping schema;
      resolved ← match PyDict.get "$ref" schema0 with
                 | Some ref => _resolve_ref spec ref
                 | None => Ok schema
                 end;
      schema1 ← as_mapping resolved;
      match PyDict.get "example" schema1 with
      | Some ex => Ok ex
      | None =>
      match examples_entry schema1 with
      | Some v => Ok v
      | None =>
      match PyDict.get "default" schema1 with
      | Some dv => Ok dv
      | None =>
      match enum_head schema1 with
      | Some x => Ok x
      | None =>
        let typ := default JNull (PyDict.get "type" schema1) in
        if is_str typ "object" then
          props ← py_items (default (JDict []) (PyDict.get "properties" schema1));
          example_obj ← rfold (fun (acc : pydict) (kv : string * json) =>
                               v ← generate_example_from_schema depth' spec (snd kv);
                               Ok (PyDict.set (fst kv) v acc)) props [];
          Ok (JDict example_obj)
        else if is_str typ "array" then
          v ← generate_example_from_schema depth' spec
                  (default (JDict []) (PyDict.get "items" schema1));
          Ok (JList [v])
        else if is_str typ "string" then Ok (string_example schema1)
        else if is_str typ "integer" then Ok (JInt 0)
        else if is_str typ "number" then Ok (JFloat 0%float)
        else if is_str typ "boolean" then Ok (JBool true)
        else Ok (JStr "example")
      end end end end
  end.

(* ===================================================================== *)
(** ** src/tool_generator.py *)
(* ===================================================================== *)

(** A value of the [properties] dict of an input schema.  A parameter gets
    a dict built for it; [properties["body"] = first_schema] stores the
    very object that sits in the document, which is a reference here: the
    path of keys from the root of the document to that node. *)
Inductive PropVal : Type :=
| PFresh (v : json)
| PAlias (ptr : list string).

(** [{"type": "object", "properties": properties, "required": required}] *)
Record InputSchema : Type := {
  properties : list (string * PropVal);
  required : list string;
}.

(** [mcp.types.Tool] *)
Record Tool : Type := {
  name : string;
  description : string;
  inputSchema : InputSchema;
}.


(** [(desc or "") + suffix] *)
Definition desc_add (desc : json) (suffix : string) : res json :=
  match py_or desc (JStr "") with
  | JStr s => Ok (JStr (s +:+ suffix))
  | v => Raise (TypeError ("unsupported operand type(s) for +: "
                             +:+ py_type_repr v +:+ " and <class 'str'>"))
  end.

(** [if desc: prop["description"] = desc] *)
Definition with_description (desc : json) (prop : pydict) : pydict :=
  if truthy desc then PyDict.set "description" desc prop else prop.

(** The [$ref] arm of the loop body of [extract_parameters]. *)
Definition ref_param_prop (E : PyEnv) (spec : json) (param_name : string)
    (schema : pydict) : res pydict :=
  ref_node ← _resolve_ref spec (default JNull (PyDict.get "$ref" schema));
  ref_schema ← as_mapping ref_node;
  let prop := [("type", default (JStr "string") (PyDict.get "type" ref_schema));
               ("title", JStr param_name)] in
  let desc := default (JStr "") (PyDict.get "description" ref_schema) in
  desc ← match PyDict.get "enum" ref_schema with
         | Some enum_vals => desc_add desc (" Possible values: " +:+ fmt E enum_vals)
         | None => Ok desc
         end;
  let example_text := _extract_example_text E ref_schema in
  example_text ← (if String.eqb example_text ""
                  then generated_example ←
                         generate_example_from_schema (recursion_limit E) spec ref_node;
                       Ok (" Example: " +:+ fmt E generated_example)
                  else Ok example_text);
  desc ← (if String.eqb example_text "" then Ok desc
          else desc_add desc example_text);
  Ok (with_description desc prop).

(** The other arm: an inline schema. *)
Definition inline_param_prop (E : PyEnv) (param schema : pydict) : res pydict :=
  let prop := [("type", default (JStr "string") (PyDict.get "type" schema))] in
  let desc := match PyDict.get "description" schema with
              | Some d => d
              | None => default (JStr "") (PyDict.get "description" param)
              end in
  desc ← match PyDict.get "enum" schema with
         | Some enum_vals => desc_add desc (" Possible values: " +:+ fmt E enum_vals)
         | None => Ok desc
         end;
  Ok (with_description desc prop).

(** One round of [for param in operation.get("parameters", [])].  A
    parameter name is a string, as OpenAPI has it; the model raises on any
    other. *)
Definition extract_parameter (E : PyEnv) (spec : json)
    (acc : list (string * PropVal) * list string) (param : json)
  : res (list (string * PropVal) * list string) :=
  name_v ← py_getitem param "name";
  param_name ← match name_v with
               | JStr s => Ok s
               | _ => Raise (TypeError "parameter name is not a string")
               end;
  pd ← as_mapping param;
  schema ← as_mapping (default (JDict []) (PyDict.get "schema" pd));
  prop ← (if PyDict.has "$ref" schema
          then ref_param_prop E spec param_name schema
          else inline_param_prop E pd schema);
  let properties := PyDict.set param_name (PFresh (JDict prop)) (fst acc) in
  let required := if truthy_opt (PyDict.get "required" pd)
                  then snd acc ++ [param_name] else snd acc in
  Ok (properties, required).

(** [extract_parameters(spec, operation, properties, required)] *)
Definition extract_parameters (E : PyEnv) (spec : json) (operation : pydict)
    (properties : list (string * PropVal)) (required : list string)
  : res (list (string * PropVal) * list string) :=
  params ← py_iter (default (JList []) (PyDict.get "parameters" operation));
  rfold (extract_parameter E spec) params (properties, required).

(** [x += s] for a string [s]: a string grows, a list is extended by the
    characters of [s], anything else raises. *)
Definition py_iadd_str (x : json) (s : string) : res json :=
  match x with
  | JStr t => Ok (JStr (t +:+ s))
  | JList l => Ok (JList (l ++ map JStr (PyStr.chars s)))
  | _ => Raise (TypeError ("unsupported operand type(s) for +=: "
                             +:+ py_type_repr x +:+ " and <class 'str'>"))
  end.

(** The text [extract_body] appends to the description of the body. *)
Definition body_annotation (E : PyEnv) (first_media_type : string)
    (first_schema : pydict) : string * string :=
  (" Body Content-Type: " +:+ first_media_type,
   match PyDict.get "example" first_schema with
   | Some ex =>
       let example := json_dumps E ex in
       if String.eqb example "" then "" else " Example: " +:+ example
   | None => ""
   end).

(** [extract_body(spec, operation, properties, required)].  [op_ptr] is
    where [operation] sits in [spec].  The function writes into
    [first_schema], a node of the document, so it returns the document as
    it has become.  It raises only before it has written anything. *)
Definition extract_body (E : PyEnv) (spec : json) (op_ptr : list string)
    (operation : pydict)
    (properties : list (string * PropVal)) (required : list string)
  : res (json * list (string * PropVal) * list string) :=
  let request_body := default JNull (PyDict.get "requestBody" operation) in
  if truthy request_body then
    content ← py_get_default request_body "content" (JDict []);
    entries ← py_items content;
    match entries with
    | [] => Raise StopIteration
    | (first_media_type, first_schema) :: _ =>
        match first_schema with
        | JDict fs =>
            if truthy first_schema then
              let ptr := op_ptr ++ ["requestBody"; "content"; first_media_type] in
              let ann := body_annotation E first_media_type fs in
              let desc := default (JStr "") (PyDict.get "description" fs) in
              desc ← py_iadd_str desc (fst ann);
              desc ← py_iadd_str desc (snd ann);
              Ok (set_path ptr (JDict (PyDict.set "description" desc fs)) spec,
                  PyDict.set "body" (PAlias ptr) properties,
                  required ++ ["body"])
            else Ok (spec, properties, required)
        | JStr EmptyString | JList [] => Ok (spec, properties, required)
        | _ => Raise (TypeError (py_type_repr first_schema +:+ " is not a mapping"))
        end
    end
  else Ok (spec, properties, required).

(** [Tool(name=..., description=..., inputSchema=...)]: pydantic wants
    strings. *)
Definition make_tool (name description : json) (schema : InputSchema) : res Tool :=
  match name, description with
  | JStr n, JStr d => Ok {| name := n; description := d; inputSchema := schema |}
  | JStr _, _ => Raise (ValidationError "description: Input should be a valid string")
  | _, _ => Raise (ValidationError "name: Input should be a valid string")
  end.

(** Where [generate_tool_from_operation] finds the operation. *)
Definition operation_ptr (path method : string) : list string :=
  ["paths"; path; PyStr.lower method].

(** The part of [generate_tool_from_operation] that comes before
    [Tool(...)]. *)
Definition tool_fields (E : PyEnv) (spec : json) (path method : string)
    (prefix : option string) : res (json * json * json * InputSchema) :=
  paths ← py_get_default spec "paths" (JDict []);
  path_item ← py_get paths path;
  if negb (truthy_opt path_item)
  then Raise (ValueError ("Path '" +:+ path +:+ "' not found in OpenAPI spec."))
  else
    operation ← py_get (default JNull path_item) (PyStr.lower method);
    if negb (truthy_opt operation)
    then Raise (ValueError ("Method '" +:+ method +:+ "' not found for path '"
                              +:+ path +:+ "' in OpenAPI spec."))
    else
      op ← as_mapping (default JNull operation);
      let name := py_or (default JNull (PyDict.get "operationId" op))
                    (JStr (PyStr.strip "_"
                             (PyStr.replace "/" "_" (method +:+ "_" +:+ path)))) in
      let name := match prefix with
                  | Some pre => if String.eqb pre "" then name
                                else JStr (pre +:+ ":" +:+ fmt E name)
                  | None => name
                  end in
      let description :=
        py_or (py_or (default JNull (PyDict.get "description" op))
                     (default JNull (PyDict.get "summary" op))) (JStr "") in
      '(properties, required) ← extract_parameters E spec op [] [];
      '(spec', properties, required) ←
          extract_body E spec (operation_ptr path method) op properties required;
      Ok (spec', name, description,
          {| properties := properties; required := required |}).

(** [generate_tool_from_operation(spec, path, method, prefix)]: the tool or
    the exception, and the document as the call leaves it. *)
Definition generate_tool_from_operation (E : PyEnv) (spec : json)
    (path method : string) (prefix : option string) : res Tool * json :=
  match tool_fields E spec path method prefix with
  | Ok (spec', name, description, schema) =>
      (make_tool name description schema, spec')
  | Raise e => (Raise e, spec)
  end.

(* ===================================================================== *)
(** ** [fnmatch.fnmatch]: shell globs *)
(* ===================================================================== *)

Module Fnmatch.

(** A pattern is a sequence of: [*], [?], a bracket class
    [[seq]] / [[!seq]] of characters and ranges, a literal character. *)
Inductive tok : Type :=
| TStar
| TAny
| TClass (neg : bool) (items : list (ascii * ascii))
| TLit (c : ascii).

(** The characters up to the first [c], and what follows it. *)
Fixpoint span_until (c : ascii) (s : list ascii) : option (list ascii * list ascii) :=
  match s with
  | [] => None
  | x :: s' =>
      if Ascii.eqb x c then Some ([], s')
      else match span_until c s' with
           | Some (body, rest) => Some (x :: body, rest)
           | None => None
           end
  end.

(** After an opening bracket: an optional [!], then a bracket that closes
    nothing when it comes first, then everything up to the closing
    bracket.  [None] when the class is never closed. *)
Definition split_class (s : list ascii) : option (bool * list ascii * list ascii) :=
  let '(neg, s1) := match s with
                    | "!"%char :: t => (true, t)
                    | _ => (false, s)
                    end in
  let '(lead, s2) := match s1 with
                     | "]"%char :: t => (["]"%char], t)
                     | _ => ([], s1)
                     end in
  match span_until "]"%char s2 with
  | Some (body, rest) => Some (neg, lead ++ body, rest)
  | None => None
  end.

(** The members of a class: [a-b] is a range, a hyphen that starts or
    ends the class stands for itself. *)
Fixpoint class_items (s : list ascii) : list (ascii * ascii) :=
  match s with
  | [] => []
  | lo :: s' =>
      match s' with
      | "-"%char :: hi :: s'' => (lo, hi) :: skip2 s''
      | _ => (lo, lo) :: class_items s'
      end
  end
with skip2 (s : list ascii) : list (ascii * ascii) :=
  match s with
  | [] => []
  | lo :: s' => (lo, lo) :: class_items s'
  end.

Fixpoint parse (fuel : nat) (p : list ascii) : list tok :=
  match fuel with
  | O => []
  | S fuel' =>
      match p with
      | [] => []
      | "*"%char :: p' => TStar :: parse fuel' p'
      | "?"%char :: p' => TAny :: parse fuel' p'
      | "["%char :: p' =>
          match split_class p' with
          | Some (neg, stuff, rest) =>
              TClass neg (class_items stuff) :: parse fuel' rest
          | None => TLit "["%char :: parse fuel' p'
          end
      | c :: p' => TLit c :: parse fuel' p'
      end
  end.

Definition in_range (c : ascii) (r : ascii * ascii) : bool :=
  ((nat_of_ascii (fst r) <=? nat_of_ascii c)
   && (nat_of_ascii c <=? nat_of_ascii (snd r)))%nat.

Fixpoint match_toks (ts : list tok) (s : list ascii) {struct ts} : bool :=
  match ts with
  | [] => match s with [] => true | _ => false end
  | TStar :: ts' =>
      (fix star (s : list ascii) : bool :=
         match_toks ts' s ||
         match s with
         | [] => false
         | _ :: s' => star s'
         end) s
  | TAny :: ts' =>
      match s with
      | [] => false
      | _ :: s' => match_toks ts' s'
      end
  | TClass neg items :: ts' =>
      match s with
      | [] => false
      | c :: s' => xorb neg (existsb (in_range c) items) && match_toks ts' s'
      end
  | TLit x :: ts' =>
      match s with
      | [] => false
      | c :: s' => Ascii.eqb c x && match_toks ts' s'
      end
  end.

(** [fnmatch.fnmatch(name, pat)] on a POSIX system, where [normcase]
    changes nothing. *)
Definition fnmatch (name pat : string) : bool :=
  let p := list_ascii_of_string pat in
  match_toks (parse (length p) p) (list_ascii_of_string name).

End Fnmatch.

(* ===================================================================== *)
(** ** src/tool_caller.py: the registry *)
(* ===================================================================== *)

(** [OperationMeta].  The attribute that holds the media type is spelled
    [conten_media_type] in the class. *)
Record OperationMeta : Type := {
  method : string;
  path : string;
  param_locations : pydict;
  meta_required : list string;
  conten_media_type : json;
  auth_type : option string;
  service_name : string;
}.

(** [src/utils/config.py]: [OpenAPISpec], one binding of a document. *)
Record OpenAPISpec : Type := {
  spec_service_name : string;
  file_location : string;
  prefix : option string;
  spec_auth_type : option string;
  base_url : option string;
  include_tags : option (list string);
  exclude_tags : option (list string);
  include_paths : option (list string);
  exclude_paths : option (list string);
}.

(** The object [OpenAPIToolCaller]: its four dicts, and the documents it
    holds.  [tool_specs[name] = spec] stores a reference to the loaded
    document; [store] is the heap of these documents, a reference is an
    index in it. *)
Record OpenAPIToolCaller : Type := {
  tools : gmap string Tool;
  registry : gmap string OperationMeta;
  tool_base_urls : gmap string string;
  tool_specs : gmap string nat;
  store : list json;
}.

Definition new_caller : OpenAPIToolCaller :=
  {| tools := ∅; registry := ∅; tool_base_urls := ∅; tool_specs := ∅;
     store := [] |}.

Definition set_store (self : OpenAPIToolCaller) (st : list json) : OpenAPIToolCaller :=
  {| tools := tools self; registry := registry self;
     tool_base_urls := tool_base_urls self; tool_specs := tool_specs self;
     store := st |}.

(** A list of patterns that is given and not empty: [if patterns]. *)
Definition is_set (patterns : option (list string)) : bool :=
  match patterns with
  | Some (_ :: _) => true
  | _ => false
  end.

Definition patterns_of (patterns : option (list string)) : list string :=
  default [] patterns.

(** [fnmatch.fnmatch(val, pat)] wants a string. *)
Definition fnmatch_value (val : json) (pat : string) : res bool :=
  match val with
  | JStr v => Ok (Fnmatch.fnmatch v pat)
  | _ => Raise (TypeError ("expected str, not " +:+ py_type_repr val))
  end.

(** The inner and the outer loop of [match_any]: return at the first
    match. *)
Fixpoint match_vals (pat : string) (vals : list json) : res bool :=
  match vals with
  | [] => Ok false
  | val :: vals' =>
      b ← fnmatch_value val pat;
      if b : bool then Ok true else match_vals pat vals'
  end.

Fixpoint match_pats (vals : list json) (patterns : list string) : res bool :=
  match patterns with
  | [] => Ok false
  | pat :: patterns' =>
      b ← match_vals pat vals;
      if b : bool then Ok true else match_pats vals patterns'
  end.

(** [match_any(val_list, patterns)] *)
Definition match_any (val_list : json) (patterns : option (list string)) : res bool :=
  if negb (is_set patterns) || negb (truthy val_list) then Ok false
  else
    vals ← py_iter val_list;
    match_pats vals (patterns_of patterns).

(** [match_path(path, patterns)] *)
Definition match_path (path : string) (patterns : option (list string)) : bool :=
  existsb (Fnmatch.fnmatch path) (patterns_of patterns).

(** The four [continue] statements of the filtering logic, in the order of
    the code. *)
Inductive FilterStep : Type :=
| IncludePaths
| ExcludePaths
| IncludeTags
| ExcludeTags.

(** The filtering logic of the loop body: the [continue] that is taken, or
    [None] when the operation goes on to be built. *)
Definition filter_operation (path : string) (op_tags : json)
    (include_tags exclude_tags include_paths exclude_paths : option (list string))
  : res (option FilterStep) :=
  if is_set include_paths && negb (match_path path include_paths)
  then Ok (Some IncludePaths)
  else if is_set exclude_paths && match_path path exclude_paths
  then Ok (Some ExcludePaths)
  else
    inc ← (if is_set include_tags then match_any op_tags include_tags else Ok true);
    if is_set include_tags && negb inc
    then Ok (Some IncludeTags)
    else
      exc ← (if is_set exclude_tags then match_any op_tags exclude_tags else Ok false);
      if is_set exclude_tags && exc
      then Ok (Some ExcludeTags)
      else Ok None.

(** The methods the loop looks at. *)
Definition http_methods : list string :=
  ["get"; "post"; "put"; "delete"; "patch"; "options"; "head"].

Definition is_http_method (m : string) : bool :=
  existsb (String.eqb (PyStr.lower m)) http_methods.

(** [for param in operation.get("parameters", []): param_locations[...] = ...] *)
Definition param_location (acc : pydict) (param : json) : res pydict :=
  name_v ← py_getitem param "name";
  pname ← match name_v with
          | JStr s => Ok s
          | _ => Raise (TypeError "parameter name is not a string")
          end;
  pd ← as_mapping param;
  Ok (PyDict.set pname (default (JStr "query") (PyDict.get "in" pd)) acc).

(** The parameter locations and the media type of an operation that has
    been built. *)
Definition operation_meta_fields (operation : pydict) : res (pydict * json) :=
  params ← py_iter (default (JList []) (PyDict.get "parameters" operation));
  param_locations ← rfold param_location params [];
  match PyDict.get "requestBody" operation with
  | Some request_body =>
      content ← py_get_default request_body "content" (JDict []);
      keys ← py_iter content;
      match keys with
      | [] => Raise StopIteration
      | first :: _ => Ok (PyDict.set "body" (JStr "body") param_locations, first)
      end
  | None => Ok (param_locations, JStr "application/json")
  end.

(** The arguments of [_add_tools_from_spec]; [spec] is a reference into the
    store. *)
Record AddArgs : Type := {
  arg_spec : nat;
  arg_filename_prefix : option string;
  arg_base_url : string;
  arg_service_name : string;
  arg_auth_type : option string;
  arg_include_tags : option (list string);
  arg_exclude_tags : option (list string);
  arg_include_paths : option (list string);
  arg_exclude_paths : option (list string);
}.

(** The document behind a reference. *)
Definition doc_of (self : OpenAPIToolCaller) (sid : nat) : json :=
  default JNull (store self !! sid).

(** The four assignments that end the loop body. *)
Definition record_tool (a : AddArgs) (path method : string) (tool : Tool)
    (param_locations : pydict) (content_media_type : json)
    (self : OpenAPIToolCaller) : OpenAPIToolCaller :=
  {| tools := <[name tool := tool]> (tools self);
     registry := <[name tool :=
                    {| method := PyStr.upper method;
                       path := path;
                       param_locations := param_locations;
                       meta_required := required (inputSchema tool);
                       conten_media_type := content_media_type;
                       auth_type := arg_auth_type a;
                       service_name := arg_service_name a |}]> (registry self);
     tool_base_urls := <[name tool := arg_base_url a]> (tool_base_urls self);
     tool_specs := <[name tool := arg_spec a]> (tool_specs self);
     store := store self |}.

(** The head of the loop body: the operation as the document has it when
    the round starts, its tags, and the filtering logic. *)
Definition filter_round (a : AddArgs) (path method : string) (spec : json)
  : res (json * option FilterStep) :=
  operation ← py_getitem (default JNull (get_path ["paths"; path] spec)) method;
  op_tags ← py_get_default operation "tags" (JList []);
  rejected ← filter_operation path op_tags
               (arg_include_tags a) (arg_exclude_tags a)
               (arg_include_paths a) (arg_exclude_paths a);
  Ok (operation, rejected).

(** The body of [for method in path_item].  After the tool has been built
    the operation is the same object, with what the builder wrote into
    it. *)
Definition add_operation (E : PyEnv) (a : AddArgs) (path : string)
    (self : OpenAPIToolCaller) (method_v : json) : res OpenAPIToolCaller :=
  match method_v with
  | JStr method =>
      if negb (is_http_method method) then Ok self
      else
        let spec := doc_of self (arg_spec a) in
        '(operation, rejected) ← filter_round a path method spec;
        match rejected with
        | Some _ => Ok self
        | None =>
            let '(built, spec') :=
              generate_tool_from_operation E spec path method (arg_filename_prefix a) in
            let self := set_store self (<[arg_spec a := spec']> (store self)) in
            match built with
            | Raise _ => Ok self
            | Ok tool =>
                op ← as_mapping (default operation
                                   (get_path ["paths"; path; method] spec'));
                '(param_locations, content_media_type) ← operation_meta_fields op;
                Ok (record_tool a path method tool param_locations
                      content_media_type self)
            end
        end
  | _ => Raise (AttributeError (py_type_repr method_v +:+ " object has no attribute 'lower'"))
  end.

(** The body of [for path, path_item in paths.items()]. *)
Definition add_path (E : PyEnv) (a : AddArgs) (self : OpenAPIToolCaller)
    (entry : string * json) : res OpenAPIToolCaller :=
  methods ← py_iter (snd entry);
  rfold (add_operation E a (fst entry)) methods self.

(** [_add_tools_from_spec(self, spec, filename_prefix, base_url, ...)] *)
Definition _add_tools_from_spec (E : PyEnv) (a : AddArgs)
    (self : OpenAPIToolCaller) : res OpenAPIToolCaller :=
  paths ← py_get_default (doc_of self (arg_spec a)) "paths" (JDict []);
  entries ← py_items paths;
  rfold (add_path E a) entries self.

(** One round of [for spec_obj in openapi_specs] in [__init__]. *)
Definition init_spec (E : PyEnv) (self : OpenAPIToolCaller) (spec_obj : OpenAPISpec)
  : res OpenAPIToolCaller :=
  match load_openapi_spec E (file_location spec_obj) with
  | Raise _ => Ok self
  | Ok spec =>
      let url := match base_url spec_obj with
                 | Some u => if String.eqb u "" then config_base_url E (spec_service_name spec_obj)
                             else Some u
                 | None => config_base_url E (spec_service_name spec_obj)
                 end in
      match url with
      | Some u =>
          if String.eqb u "" then Ok self
          else
            _add_tools_from_spec E
              {| arg_spec := length (store self);
                 arg_filename_prefix := prefix spec_obj;
                 arg_base_url := u;
                 arg_service_name := spec_service_name spec_obj;
                 arg_auth_type := spec_auth_type spec_obj;
                 arg_include_tags := include_tags spec_obj;
                 arg_exclude_tags := exclude_tags spec_obj;
                 arg_include_paths := include_paths spec_obj;
                 arg_exclude_paths := exclude_paths spec_obj |}
              (set_store self (store self ++ [spec]))
      | None => Ok self
      end
  end.

(** [OpenAPIToolCaller.__init__(self, openapi_specs)] *)
Definition __init__ (E : PyEnv) (openapi_specs : list OpenAPISpec)
  : res OpenAPIToolCaller :=
  rfold (init_spec E) openapi_specs new_caller.

(* ===================================================================== *)
(** ** src/utils/env_utils.py and src/utils/auth.py *)
(* ===================================================================== *)

(** [get_env_var(key)] *)
Definition get_env_var (E : PyEnv) (key : string) : res (option string) :=
  let upper := PyStr.upper key in
  let lower := PyStr.lower key in
  match os_environ E upper, os_environ E lower with
  | Some _, Some _ =>
      Raise (ValueError ("Ambiguous environment variable: both '" +:+ upper
                           +:+ "' and '" +:+ lower
                           +:+ "' are set. Please set only one."))
  | Some v, None => Ok (Some v)
  | None, Some v => Ok (Some v)
  | None, None => Ok None
  end.

Definition env_value (o : option string) : json :=
  match o with Some s => JStr s | None => JNull end.

(** [get_basic_auth_header(service_name)] *)
Definition get_basic_auth_header (E : PyEnv) (service : string) : res pydict :=
  let auth := default JNull (config_authentication E service) in
  '(key, secret) ← (if truthy auth
                    then key ← py_get auth "api_key";
                         secret ← py_get auth "api_secret";
                         Ok (default JNull key, default JNull secret)
                    else Ok (JNull, JNull));
  '(key, secret) ← (if negb (truthy key) || negb (truthy secret)
                    then key ← get_env_var E (PyStr.upper service +:+ "_API_KEY");
                         secret ← get_env_var E (PyStr.upper service +:+ "_API_SECRET");
                         Ok (env_value key, env_value secret)
                    else Ok (key, secret));
  if negb (truthy key) || negb (truthy secret)
  then Raise (RuntimeError
                ("Missing API credentials for service '" +:+ service +:+ "'. "
                 +:+ "Set 'api_key' and 'api_secret' in config.yaml under openapi."
                 +:+ service +:+ ".authentication, or set "
                 +:+ PyStr.upper service +:+ "_API_KEY and "
                 +:+ PyStr.upper service +:+ "_API_SECRET in environment variables."))
  else Ok [("Authorization",
            JStr ("Basic " +:+ b64encode E (fmt E key +:+ ":" +:+ fmt E secret)))].

(** [get_bearer_auth_header(service_name)] *)
Definition get_bearer_auth_header (E : PyEnv) (service : string) : res pydict :=
  let auth := default JNull (config_authentication E service) in
  api_token ← (if truthy auth
               then t ← py_get auth "api_token"; Ok (default JNull t)
               else Ok JNull);
  api_token ← (if negb (truthy api_token)
               then t ← get_env_var E (PyStr.upper service +:+ "_API_TOKEN");
                    Ok (env_value t)
               else Ok api_token);
  if negb (truthy api_token)
  then Raise (RuntimeError
                ("Missing API token for service '" +:+ service +:+ "'. "
                 +:+ "Set 'api_token' in config.yaml under openapi."
                 +:+ service +:+ ".authentication, or set "
                 +:+ PyStr.upper service +:+ "_API_TOKEN in environment variables."))
  else Ok [("Authorization", JStr ("Bearer " +:+ fmt E api_token))].

(** [get_auth_header(auth_type, service_name)] *)
Definition get_auth_header (E : PyEnv) (auth_type : option string) (service : string)
  : res pydict :=
  match auth_type with
  | Some t =>
      if String.eqb (PyStr.lower t) "basic" then get_basic_auth_header E service
      else if String.eqb (PyStr.lower t) "bearer" then get_bearer_auth_header E service
      else Raise (ValueError ("Unsupported auth type: " +:+ t
                                +:+ ". Supported types are 'basic' and 'bearer'."))
  | None => Raise (AttributeError "<class 'NoneType'> object has no attribute 'lower'")
  end.

(* ===================================================================== *)
(** ** src/tool_caller.py: the dispatcher *)
(* ===================================================================== *)

(** [create_headers(self, meta, headers)] *)
Definition create_headers (E : PyEnv) (meta : OperationMeta) (headers : pydict)
  : res pydict :=
  auth_header ← get_auth_header E (auth_type meta) (service_name meta);
  let content_type_header := [("Content-Type", conten_media_type meta)] in
  let headers := PyDict.merge headers content_type_header in
  let merged_headers := if truthy (JDict headers)
                        then PyDict.merge auth_header headers
                        else auth_header in
  Ok merged_headers.

(** What a dispatch does to the world: it opens files, sends one request,
    closes files. *)
Inductive event : Type :=
| EvOpen (handle : nat) (path : string)
| EvSend (request : RequestKwargs)
| EvClose (handle : nat).

(** [if tool_name not in self.tools or tool_name not in self.registry] *)
Definition lookup_tool (self : OpenAPIToolCaller) (tool_name : string)
  : res (Tool * OperationMeta) :=
  match tools self !! tool_name, registry self !! tool_name with
  | Some tool, Some meta => Ok (tool, meta)
  | _, _ => Raise (ValueError ("Unknown tool: " +:+ tool_name))
  end.

(** [for req in required: if req not in arguments: raise ...] *)
Fixpoint check_required (required : list string) (arguments : pydict) : res unit :=
  match required with
  | [] => Ok tt
  | req :: required' =>
      if negb (PyDict.has req arguments)
      then Raise (ValueError ("Missing required argument: " +:+ req))
      else check_required required' arguments
  end.

(** [base_url = self.tool_base_urls.get(tool_name)] and the test that
    follows. *)
Definition check_base_url (self : OpenAPIToolCaller) (tool_name : string) : res string :=
  match tool_base_urls self !! tool_name with
  | Some u =>
      if String.eqb u ""
      then Raise (ValueError ("No base URL found for tool: " +:+ tool_name))
      else Ok u
  | None => Raise (ValueError ("No base URL found for tool: " +:+ tool_name))
  end.

(** The four dicts the arguments are sorted into. *)
Record Partition : Type := {
  path_params : pydict;
  query_params : pydict;
  headers : pydict;
  req_body : pydict;
}.

(** One round of [for pname, value in arguments.items()]. *)
Definition partition_argument (meta : OperationMeta) (acc : Partition)
    (kv : string * json) : Partition :=
  let '(pname, value) := kv in
  let loc := default (JStr "query") (PyDict.get pname (param_locations meta)) in
  if is_str loc "path" then
    {| path_params := PyDict.set pname value (path_params acc);
       query_params := query_params acc; headers := headers acc;
       req_body := req_body acc |}
  else if is_str loc "query" then
    {| path_params := path_params acc;
       query_params := PyDict.set pname value (query_params acc);
       headers := headers acc; req_body := req_body acc |}
  else if is_str loc "header" then
    {| path_params := path_params acc; query_params := query_params acc;
       headers := PyDict.set pname value (headers acc);
       req_body := req_body acc |}
  else if is_str loc "body" then
    {| path_params := path_params acc; query_params := query_params acc;
       headers := headers acc;
       req_body := PyDict.set pname value (req_body acc) |}
  else acc.

Definition partition_arguments (meta : OperationMeta) (arguments : pydict) : Partition :=
  fold_left (partition_argument meta) arguments
    {| path_params := []; query_params := []; headers := []; req_body := [] |}.

(** [for pname, value in path_params.items(): url = url.replace(...)] *)
Definition substitute_path (E : PyEnv) (url : string) (path_params : pydict) : string :=
  fold_left (fun url kv =>
               PyStr.replace ("{" +:+ fst kv +:+ "}") (fmt E (snd kv)) url)
    path_params url.

Definition nonempty_dict (d : pydict) : option pydict :=
  match d with [] => None | _ => Some d end.

Definition nonempty_value (v : json) : option json :=
  if truthy v then Some v else None.

(** From the lookup of the tool to the dict [request_kwargs], before the
    body is encoded: the request so far, the body and the content type.
    The call of [log] between [create_headers] and this dict only
    writes to the logger. *)
Definition request_base (E : PyEnv) (self : OpenAPIToolCaller) (tool_name : string)
    (arguments : pydict) : res (RequestKwargs * json * string) :=
  '(tool, meta) ← lookup_tool self tool_name;
  _ ← check_required (required (inputSchema tool)) arguments;
  base ← check_base_url self tool_name;
  let url := PyStr.rstrip "/" base +:+ path meta in
  let parts := partition_arguments meta arguments in
  let body := match PyDict.get "body" arguments with
              | Some b => b
              | None => JDict (req_body parts)
              end in
  let url := substitute_path E url (path_params parts) in
  req_headers ← create_headers E meta (headers parts);
  content_type ← match conten_media_type meta with
                 | JStr s => Ok (let l := PyStr.lower s in
                                 if String.eqb l "" then "application/json" else l)
                 | v => Raise (AttributeError
                                 (py_type_repr v +:+ " object has no attribute 'lower'"))
                 end;
  Ok ({| rq_method := method meta; rq_url := url;
         rq_params := nonempty_dict (query_params parts);
         rq_headers := req_headers;
         rq_json := None; rq_data := None; rq_files := [] |},
      body, content_type).

(** [for file_path in attachments]: every file that opens is a new handle
    appended to [files]; the loop raises at the first path that is no
    string or does not open. *)
Fixpoint open_attachments (E : PyEnv) (attachments : list json) (files : list FilePart)
  : res (list FilePart) * list event :=
  match attachments with
  | [] => (Ok files, [])
  | file_path :: attachments' =>
      match file_path with
      | JStr fp =>
          let resolved_path := if PyStr.isabs fp then fp
                               else PyStr.path_join (getcwd E) fp in
          let mime_type := match guess_type E (PyStr.basename resolved_path) with
                           | Some m => if String.eqb m "" then "application/octet-stream"
                                       else m
                           | None => "application/octet-stream"
                           end in
          if can_open E resolved_path then
            let file_obj := length files in
            let '(r, tr) :=
              open_attachments E attachments'
                (files ++ [{| fp_name := PyStr.basename resolved_path;
                              fp_handle := file_obj; fp_mime := mime_type |}]) in
            (r, EvOpen file_obj resolved_path :: tr)
          else
            (Raise (ValueError ("Failed to open attachment file: " +:+ resolved_path)), [])
      | _ =>
          (Raise (ValueError ("Attachment path must be a string, got "
                                +:+ py_type_repr file_path)), [])
      end
  end.

(** [form_fields]: the body without ["attachment"], a backslash followed by
    [n] in a string field turned into a newline. *)
Definition form_field (acc : pydict) (kv : string * json) : pydict :=
  let '(k, v) := kv in
  if String.eqb k "attachment" then acc
  else match v with
       | JStr s => PyDict.set k (JStr (PyStr.replace "\n" (String "010"%char "") s)) acc
       | _ => PyDict.set k v acc
       end.

Definition with_body (kw : RequestKwargs) (hdrs : pydict) (js data : option json)
    (files : list FilePart) : RequestKwargs :=
  {| rq_method := rq_method kw; rq_url := rq_url kw; rq_params := rq_params kw;
     rq_headers := hdrs; rq_json := js; rq_data := data; rq_files := files |}.

(** The [if content_type == ...] chain: the finished [request_kwargs] and
    the list [files]. *)
Definition encode_body (E : PyEnv) (kw : RequestKwargs) (body : json)
    (content_type : string) : res (RequestKwargs * list FilePart) * list event :=
  if String.eqb content_type "application/json" then
    (Ok (with_body kw (rq_headers kw) (nonempty_value body) None [], []), [])
  else if String.eqb content_type "application/x-www-form-urlencoded" then
    (Ok (with_body kw (rq_headers kw) None (nonempty_value body) [], []), [])
  else if String.eqb content_type "multipart/form-data" then
    match py_get body "attachment" with
    | Raise e => (Raise e, [])
    | Ok attachments =>
        let attachments := default JNull attachments in
        if negb (truthy attachments) then
          (Ok (with_body kw
                 (PyDict.set "Content-Type"
                    (JStr "application/x-www-form-urlencoded") (rq_headers kw))
                 None (nonempty_value body) [], []), [])
        else
          let attachments := match attachments with
                             | JList l => l
                             | _ => [attachments]
                             end in
          match open_attachments E attachments [] with
          | (Raise e, tr) => (Raise e, tr)
          | (Ok files, tr) =>
              let form_fields :=
                match body with
                | JDict d => fold_left form_field d []
                | _ => []
                end in
              (Ok (with_body kw (PyDict.del "Content-Type" (rq_headers kw))
                     None (option_map JDict (nonempty_dict form_fields)) files,
                   files), tr)
          end
    end
  else (Ok (kw, []), []).

(** Lines 241 to 349 of [call_tool]: everything before the [try]. *)
Definition build_request (E : PyEnv) (self : OpenAPIToolCaller) (tool_name : string)
    (arguments : pydict) : res (RequestKwargs * list FilePart) * list event :=
  match request_base E self tool_name arguments with
  | Raise e => (Raise e, [])
  | Ok (kw, body, content_type) => encode_body E kw body content_type
  end.

(** [resp.raise_for_status()] of [requests]: a 4xx or a 5xx status
    raises. *)
Definition raise_for_status (resp : Response) : res unit :=
  if (400 <=? status_code resp) && (status_code resp <? 600)
  then Raise (HTTPError (status_code resp) (text resp))
  else Ok tt.

(** What follows the [finally]. *)
Definition handle_response (resp : Response) : res json :=
  _ ← raise_for_status resp;
  match json_body resp with
  | Ok v => Ok v
  | Raise _ => Ok (JStr (text resp))
  end.

(** The [try] block: prepare and send. *)
Definition try_send (E : PyEnv) (kw : RequestKwargs) : res Response * list event :=
  match prepare_request E kw with
  | Raise e => (Raise e, [])
  | Ok prepped => (send E prepped, [EvSend prepped])
  end.

(** The [finally] block. *)
Definition close_files (files : list FilePart) : list event :=
  map (fun f => EvClose (fp_handle f)) files.

(** Lines 352 to 366 of [call_tool]. *)
Definition send_request (E : PyEnv) (kw : RequestKwargs) (files : list FilePart)
  : res json * list event :=
  let '(r, tr) := try_send E kw in
  (resp ← r; handle_response resp, tr ++ close_files files).

(** [call_tool(self, tool_name, arguments)]: the value returned or the
    exception raised, and what the call did on the way. *)
Definition call_tool (E : PyEnv) (self : OpenAPIToolCaller) (tool_name : string)
    (arguments : pydict) : res json * list event :=
  match build_request E self tool_name arguments with
  | (Raise e, tr) => (Raise e, tr)
  | (Ok (kw, files), tr) =>
      let '(r, tr') := send_request E kw files in
      (r, tr ++ tr')
  end.

(* ===================================================================== *)
(** ** Statements read from the specification *)
(* ===================================================================== *)







(** The rules of the example synthesizer as the specification lists them,
    each one yielding a value or passing; [recur] synthesizes a nested
    node. *)
Definition type_rule (recur : json -> res json) (schema : pydict) : res json :=
  let typ := default JNull (PyDict.get "type" schema) in
  if is_str typ "object" then
    props ← py_items (default (JDict []) (PyDict.get "properties" schema));
    example_obj ← rfold (fun (acc : pydict) (kv : string * json) =>
                         v ← recur (snd kv);
                         Ok (PyDict.set (fst kv) v acc)) props [];
    Ok (JDict example_obj)
  else if is_str typ "array" then
    v ← recur (default (JDict []) (PyDict.get "items" schema));
    Ok (JList [v])
  else if is_str typ "string" then Ok (string_example schema)
  else if is_str typ "integer" then Ok (JInt 0)
  else if is_str typ "number" then Ok (JFloat 0%float)
  else if is_str typ "boolean" then Ok (JBool true)
  else Ok (JStr "example").

Definition synthesis_rules (recur : json -> res json)
  : list (pydict -> option (res json)) :=
  [ (fun schema => Ok <$> PyDict.get "example" schema);
    (fun schema => Ok <$> examples_entry schema);
    (fun schema => Ok <$> PyDict.get "default" schema);
    (fun schema => Ok <$> enum_head schema);
    (fun schema => Some (type_rule recur schema)) ].

Fixpoint first_match {A B} (rules : list (A -> option B)) (a : A) : option B :=
  match rules with
  | [] => None
  | rule :: rules' =>
      match rule a with
      | Some b => Some b
      | None => first_match rules' a
      end
  end.

(** The root [$ref] of a node, resolved once. *)
Definition resolve_root (spec : json) (schema : json) : res pydict :=
  schema0 ← as_mapping schema;
  resolved ← match PyDict.get "$ref" schema0 with
             | Some ref => _resolve_ref spec ref
             | None => Ok schema
             end;
  as_mapping resolved.




(** The four maps have the same keys. *)
Definition same_keys (self : OpenAPIToolCaller) : Prop :=
  dom (tools self) =@{gset string} dom (registry self) ∧
  dom (registry self) =@{gset string} dom (tool_base_urls self) ∧
  dom (tool_base_urls self) =@{gset string} dom (tool_specs self).

(** No base URL in the registry is empty. *)
Definition base_urls_set (self : OpenAPIToolCaller) : Prop :=
  ∀ tool_name u, tool_base_urls self !! tool_name = Some u → u ≠ "".

(** A status that [raise_for_status] turns into an exception. *)
Definition error_status (status : Z) : Prop := 400 ≤ status < 600.

(** Handles that a trace opens and does not close. *)
Fixpoint leaked (tr : list event) : list nat :=
  match tr with
  | [] => []
  | EvOpen h _ :: tr' =>
      if existsb (fun e => match e with EvClose h' => Nat.eqb h h' | _ => false end) tr'
      then leaked tr' else h :: leaked tr'
  | _ :: tr' => leaked tr'
  end.

(* ===================================================================== *)
(** ** Sample documents and a sample environment *)
(* ===================================================================== *)

Module Samples.

Definition quote : string := String "034"%char "".

(** [str] and [json.dumps] on the scalars the samples print. *)
Definition sample_str (v : json) : string :=
  match v with
  | JNull => "None"
  | JBool true => "True"
  | JBool false => "False"
  | JInt n => NilZero.string_of_int (Z.to_int n)
  | JStr s => s
  | _ => "..."
  end.

Definition sample_dumps (v : json) : string :=
  match v with
  | JNull => "null"
  | JBool true => "true"
  | JBool false => "false"
  | JInt n => NilZero.string_of_int (Z.to_int n)
  | JStr s => quote +:+ s +:+ quote
  | _ => "..."
  end.

Definition operation (operation_id : string) (fields : pydict) : json :=
  JDict (("operationId", JStr operation_id) :: fields).

Definition tags (l : list string) : string * json := ("tags", JList (JStr <$> l)).

(** The document of [test_include_exclude_tags_paths]. *)
Definition filter_doc : json :=
  JDict [("openapi", JStr "3.0.0");
         ("paths", JDict [
            ("/foo", JDict [("get", operation "getFoo" [tags ["A"; "B"]; ("parameters", JList [])])]);
            ("/bar", JDict [("post", operation "postBar" [tags ["B"; "C"]; ("parameters", JList [])])]);
            ("/baz", JDict [("get", operation "getBaz" [tags ["C"; "D"]; ("parameters", JList [])])])])].

(** One required path parameter [id], no body. *)
Definition item_doc : json :=
  JDict [("paths", JDict [
            ("/items/{id}", JDict [("get", operation "getItem" [
               ("parameters", JList [JDict [("name", JStr "id"); ("in", JStr "path");
                                            ("required", JBool true);
                                            ("schema", JDict [("type", JStr "integer")])];
                                     JDict [("name", JStr "Content-Type"); ("in", JStr "header");
                                            ("schema", JDict [("type", JStr "string")])]])])])])].

(** A multipart upload. *)
Definition upload_doc : json :=
  JDict [("paths", JDict [
            ("/upload", JDict [("post", operation "upload" [
               ("requestBody", JDict [("content", JDict [
                  ("multipart/form-data",
                   JDict [("schema", JDict [("type", JStr "object")])])])])])])])].

(** An operation under [trace]. *)
Definition trace_doc : json :=
  JDict [("paths", JDict [
            ("/ping", JDict [("trace", operation "tracePing" [])])])].

(** A request body whose media type entry is empty. *)
Definition bare_body_doc : json :=
  JDict [("paths", JDict [
            ("/notes", JDict [("post", operation "addNote" [
               ("requestBody", JDict [("required", JBool true);
                                      ("content", JDict [("application/json", JDict [])])])])])])].

(** A request body with a schema and an example. *)
Definition note_entry : pydict :=
  [("schema", JDict [("type", JStr "object")]); ("example", JStr "hi")].

Definition note_operation : pydict :=
  [("operationId", JStr "addNote");
   ("requestBody", JDict [("content", JDict [("application/json", JDict note_entry)])])].

Definition body_doc : json :=
  JDict [("paths", JDict [("/notes", JDict [("post", JDict note_operation)])])].



Definition sample_load (location : string) : res json :=
  if String.eqb location "filter.yaml" then Ok filter_doc
  else if String.eqb location "item.yaml" then Ok item_doc
  else if String.eqb location "upload.yaml" then Ok upload_doc
  else if String.eqb location "trace.yaml" then Ok trace_doc
  else if String.eqb location "bare_body.yaml" then Ok bare_body_doc
  else if String.eqb location "body.yaml" then Ok body_doc
  else Raise (RuntimeError "cannot load the document").

(** An environment in which the service [test] has Basic credentials, the
    one file [/data/a.txt] can be opened, and every request is answered by
    [reply].  [sample_b64] stands in for the encoder. *)
Definition sample_b64 (s : string) : string := "b64:" +:+ s.

Definition sample_env (reply : res Response) : PyEnv :=
  {| py_str := sample_str;
     recursion_limit := 1000;
     json_dumps := sample_dumps;
     b64encode := sample_b64;
     load_openapi_spec := sample_load;
     config_base_url := fun _ => None;
     config_authentication := fun service =>
       if String.eqb service "test"
       then Some (JDict [("auth_type", JStr "Basic"); ("api_key", JStr "key");
                         ("api_secret", JStr "secret")])
       else None;
     os_environ := fun _ => None;
     getcwd := "/work";
     guess_type := fun name => if String.eqb name "a.txt" then Some "text/plain" else None;
     can_open := fun p => String.eqb p "/data/a.txt";
     prepare_request := fun kw => Ok kw;
     send := fun _ => reply |}.

(** A reply whose status is outside every class of the standard. *)
Definition denied_reply : res Response :=
  Ok {| status_code := 999; text := "denied";
        json_body := Raise (ValueError "Expecting value: line 1 column 1 (char 0)") |}.

Definition ok_reply : res Response :=
  Ok {| status_code := 200; text := "{}"; json_body := Ok (JDict []) |}.

Definition binding (location : string) : OpenAPISpec :=
  {| spec_service_name := "test"; file_location := location;
     prefix := Some "test"; spec_auth_type := Some "Basic";
     base_url := Some "https://dummy.api";
     include_tags := None; exclude_tags := None;
     include_paths := None; exclude_paths := None |}.


(** The caller a construction yields, or the empty one when it raised. *)
Definition built (r : res OpenAPIToolCaller) : OpenAPIToolCaller :=
  match r with Ok self => self | Raise _ => new_caller end.

Definition env : PyEnv := sample_env ok_reply.

(** The callers built from the sample documents. *)
Definition item_caller : OpenAPIToolCaller := built (__init__ env [binding "item.yaml"]).
Definition upload_caller : OpenAPIToolCaller := built (__init__ env [binding "upload.yaml"]).

(** What [item_caller] holds for [test:getItem]. *)
Definition item_tool : Tool :=
  {| name := "test:getItem"; description := "";
     inputSchema :=
       {| properties := [("id", PFresh (JDict [("type", JStr "integer")]));
                         ("Content-Type", PFresh (JDict [("type", JStr "string")]))];
          required := ["id"] |} |}.

Definition item_meta : OperationMeta :=
  {| method := "GET"; path := "/items/{id}";
     param_locations := [("id", JStr "path"); ("Content-Type", JStr "header")];
     meta_required := ["id"];
     conten_media_type := JStr "application/json";
     auth_type := Some "Basic"; service_name := "test" |}.

(** [_add_tools_from_spec] as [__init__] calls it for [item.yaml]: the
    arguments, and the caller that has just loaded the document. *)
Definition sample_args : AddArgs :=
  {| arg_spec := 0; arg_filename_prefix := Some "test";
     arg_base_url := "https://dummy.api"; arg_service_name := "test";
     arg_auth_type := Some "Basic";
     arg_include_tags := None; arg_exclude_tags := None;
     arg_include_paths := None; arg_exclude_paths := None |}.

Definition item_start : OpenAPIToolCaller := set_store new_caller [item_doc].


(** A caller that sends its own [Content-Type] header. *)
Definition item_arguments : pydict :=
  [("id", JInt 5); ("Content-Type", JStr "text/plain")].

(** Two attachments, the second of which cannot be opened. *)
Definition upload_arguments : pydict :=
  [("body", JDict [("attachment", JList [JStr "/data/a.txt"; JStr "/data/missing.txt"]);
                   ("note", JStr "see attachment")])].

End Samples.

(* ===================================================================== *)
(** ** Notions for the statements about the rest of the code *)
(* ===================================================================== *)

(** The names of the parameters that carry a truthy [required], in the
    order of the list. *)
Definition required_names (params : list json) : list string :=
  flat_map (λ param,
              match param with
              | JDict d =>
                  match PyDict.get "name" d with
                  | Some (JStr n) =>
                      if truthy_opt (PyDict.get "required" d) then [n] else []
                  | _ => []
                  end
              | _ => []
              end) params.

(** The name of a parameter. *)
Definition param_name (param : json) : option string :=
  match param with
  | JDict d =>
      match PyDict.get "name" d with
      | Some (JStr n) => Some n
      | _ => None
      end
  | _ => None
  end.

(** A schema node that none of the first four rules of the synthesizer
    applies to, and that has no [$ref]. *)
Definition plain_node (schema : pydict) : Prop :=
  PyDict.get "$ref" schema = None ∧ PyDict.get "example" schema = None ∧
  examples_entry schema = None ∧ PyDict.get "default" schema = None ∧
  enum_head schema = None.

(** One frame of the synthesizer, the calls on nested nodes going to
    [recur]. *)
Definition synth_step (recur : json → res json) (spec schema : json) : res json :=
  schema1 ← resolve_root spec schema;
  match first_match (synthesis_rules recur) schema1 with
  | Some r => r
  | None => Ok (JStr "example")
  end.

Module Cases.

(** A schema that contains itself: [Node] has a property [next] that
    refers to [Node]. *)
Definition node_ref : json := JStr "#/components/schemas/Node".

Definition node_schema : pydict :=
  [("type", JStr "object");
   ("properties", JDict [("next", JDict [("$ref", node_ref)]);
                         ("value", JDict [("type", JStr "integer")])])].

Definition cyclic_doc : json :=
  JDict [("components", JDict [("schemas", JDict [("Node", JDict node_schema)])])].

(** An object schema with two properties. *)
Definition pair_props : pydict :=
  [("b", JDict [("type", JStr "string")]); ("a", JDict [("type", JStr "integer")])].

Definition pair_schema : pydict :=
  [("type", JStr "object"); ("properties", JDict pair_props)].

End Cases.



(** A name with the prefix of its binding in front. *)
Definition prefixed (prefix : option string) (base : string) : string :=
  match prefix with
  | Some p => if String.eqb p "" then base else p +:+ ":" +:+ base
  | None => base
  end.

Module Cases2.

(** A path item whose only key is written in upper case. *)
Definition upper_item : pydict := [("GET", Samples.operation "getThing" [])].

Definition upper_doc : json := JDict [("paths", JDict [("/things", JDict upper_item)])].

Definition upper_start : OpenAPIToolCaller := set_store new_caller [upper_doc].

(** An operation with three parameters, two of them required. *)
Definition search_operation : pydict :=
  [("parameters", JList [
      JDict [("name", JStr "q"); ("in", JStr "query"); ("required", JBool true)];
      JDict [("name", JStr "page"); ("in", JStr "query"); ("schema", JDict [("type", JStr "integer")])];
      JDict [("name", JStr "tenant"); ("in", JStr "path"); ("required", JBool true);
             ("schema", JDict [("type", JStr "string")])]])].

Definition search_doc : json :=
  JDict [("paths", JDict [("/t/{tenant}/search", JDict [("get", JDict search_operation)])])].

End Cases2.


(** The methods of the registry, as [method.upper()] writes them. *)
Definition http_methods_upper : list string :=
  ["GET"; "POST"; "PUT"; "DELETE"; "PATCH"; "OPTIONS"; "HEAD"].

(** What the four maps hold for a name is the same in both callers. *)
Definition entry_untouched (self self' : OpenAPIToolCaller) (n : string) : Prop :=
  tools self' !! n = tools self !! n ∧ registry self' !! n = registry self !! n ∧
  tool_base_urls self' !! n = tool_base_urls self !! n ∧
  tool_specs self' !! n = tool_specs self !! n.

(** A name is registered with what a call of [_add_tools_from_spec] was
    given: its base URL, its document, its auth type, its service name, and
    its prefix in front of the name. *)
Definition entry_bound (a : AddArgs) (self' : OpenAPIToolCaller) (n : string) : Prop :=
  ∃ tool meta base,
    tools self' !! n = Some tool ∧ registry self' !! n = Some meta ∧
    tool_base_urls self' !! n = Some (arg_base_url a) ∧
    tool_specs self' !! n = Some (arg_spec a) ∧
    auth_type meta = arg_auth_type a ∧ service_name meta = arg_service_name a ∧
    n = prefixed (arg_filename_prefix a) base.

(** A binding that [__init__] passes over: its document does not load, or
    neither the binding nor the configuration gives a base URL. *)
Definition passed_over (E : PyEnv) (spec_obj : OpenAPISpec) : Prop :=
  (∃ e, load_openapi_spec E (file_location spec_obj) = Raise e) ∨
  ((base_url spec_obj = None ∨ base_url spec_obj = Some "") ∧
   (config_base_url E (spec_service_name spec_obj) = None ∨
    config_base_url E (spec_service_name spec_obj) = Some "")).


(** The three kinds of events. *)
Definition is_open_event (e : event) : Prop :=
  match e with EvOpen _ _ => True | _ => False end.

Definition is_send_event (e : event) : Prop :=
  match e with EvSend _ => True | _ => False end.

Definition is_close_event (e : event) : Prop :=
  match e with EvClose _ => True | _ => False end.

(** The declared location of an argument, [query] when none is declared. *)
Definition location_of (meta : OperationMeta) (pname : string) : json :=
  default (JStr "query") (PyDict.get pname (param_locations meta)).

(** Text in which every character is an ASCII character: on such text
    [PyStr.lower], [PyStr.upper] and the stripping of white space are
    those of [str]. *)
Fixpoint ascii_text (s : string) : bool :=
  match s with
  | EmptyString => true
  | String c s' => (nat_of_ascii c <? 128)%nat && ascii_text s'
  end.

(** The environment with an empty configuration file. *)
Definition without_config (E : PyEnv) : PyEnv :=
  {| py_str := py_str E; recursion_limit := recursion_limit E;
     json_dumps := json_dumps E; b64encode := b64encode E;
     load_openapi_spec := load_openapi_spec E;
     config_base_url := λ _, None;
     config_authentication := λ _, None;
     os_environ := os_environ E; getcwd := getcwd E;
     guess_type := guess_type E; can_open := can_open E;
     prepare_request := prepare_request E; send := send E |}.

Module Cases4.



(** Metadata with a cookie parameter. *)
Definition cookie_meta : OperationMeta :=
  {| method := "GET"; path := "/me";
     param_locations := [("session", JStr "cookie"); ("X-Trace", JStr "header")];
     meta_required := [];
     conten_media_type := JStr "application/json";
     auth_type := Some "Basic"; service_name := "test" |}.

(** An environment whose configuration gives a key without a secret, and
    whose process environment gives both. *)
Definition split_env : PyEnv :=
  {| py_str := Samples.sample_str; recursion_limit := 1000;
     json_dumps := Samples.sample_dumps; b64encode := Samples.sample_b64;
     load_openapi_spec := Samples.sample_load;
     config_base_url := λ _, None;
     config_authentication := λ _, Some (JDict [("api_key", JStr "from-config")]);
     os_environ := λ k, if String.eqb k "SMS_API_KEY" then Some "env-key"
                        else if String.eqb k "SMS_API_SECRET" then Some "env-secret"
                        else None;
     getcwd := "/work"; guess_type := λ _, None; can_open := λ _, false;
     prepare_request := λ kw, Ok kw; send := λ _, Samples.ok_reply |}.

(** An environment whose configuration gives both credentials, and whose
    process environment sets a variable in both cases. *)
Definition loud_env : PyEnv :=
  {| py_str := Samples.sample_str; recursion_limit := 1000;
     json_dumps := Samples.sample_dumps; b64encode := Samples.sample_b64;
     load_openapi_spec := Samples.sample_load;
     config_base_url := λ _, None;
     config_authentication := λ _, Some (JDict [("api_key", JStr "key");
                                                ("api_secret", JStr "secret")]);
     os_environ := λ k, if String.eqb k "TEST_API_KEY" then Some "upper"
                        else if String.eqb k "test_api_key" then Some "lower"
                        else None;
     getcwd := "/work"; guess_type := λ _, None; can_open := λ _, false;
     prepare_request := λ kw, Ok kw; send := λ _, Samples.ok_reply |}.

(** Metadata with an [Authorization] header parameter. *)
Definition token_meta : OperationMeta :=
  {| method := "GET"; path := "/me";
     param_locations := [("Authorization", JStr "header"); ("X-Trace", JStr "header")];
     meta_required := [];
     conten_media_type := JStr "application/json";
     auth_type := Some "Basic"; service_name := "test" |}.

Definition override_arguments : pydict :=
  [("Authorization", JStr "Bearer mine"); ("X-Trace", JStr "t1")].





End Cases4.


(* ===================================================================== *)
(** ** src/utils/config.py *)
(* ===================================================================== *)

Module Config.

(** The dataclass [OpenAPISpec] as [openapi_specs] fills it.  A dataclass
    checks no type: a field holds what the file or the process environment
    gives, [JNull] for [None]. *)
Record OpenAPISpec : Type := {
  service_name : string;
  file_location : json;
  prefix : string;
  auth_type : json;
  base_url : json;
  include_tags : json;
  exclude_tags : json;
  include_paths : json;
  exclude_paths : json;
}.

(** The loop of [_get]:
    [for k in keys: if isinstance(d, dict) and k in d: d = d[k]
     else: d = None; break]. *)
Fixpoint descend (d : json) (keys : list string) : json :=
  match keys with
  | [] => d
  | k :: keys' =>
      match d with
      | JDict m =>
          match PyDict.get k m with
          | Some v => descend v keys'
          | None => JNull
          end
      | _ => JNull
      end
  end.

(** Steps 2 and 3 of [_get]: the value in the file, [default] when there
    is none or it is [None]. *)
Definition from_yaml (yaml : json) (keys : list string) (default : json) : json :=
  match descend yaml keys with
  | JNull => default
  | d => d
  end.

(** [Config._get(self, *keys, env=None, default=None)]; [yaml] is
    [self._yaml]. *)
Definition _get (E : PyEnv) (yaml : json) (keys : list string) (env : option string)
    (default : json) : res json :=
  env_val ← match env with
            | Some name => if String.eqb name "" then Ok None else get_env_var E name
            | None => Ok None
            end;
  match env_val with
  | Some v => Ok (JStr v)
  | None => Ok (from_yaml yaml keys default)
  end.

(** [Config.openapi_services] *)
Definition openapi_services (yaml : json) : list string :=
  match from_yaml yaml ["openapi"] (JDict []) with
  | JDict d => PyDict.keys d
  | _ => []
  end.

(** [get_openapi_file_location], [get_openapi_base_url] and
    [get_openapi_authentication] call [_get] without [env]. *)
Definition get_openapi_file_location (yaml : json) (service : string) : json :=
  from_yaml yaml ["openapi"; service; "file_location"] JNull.

Definition get_openapi_base_url (yaml : json) (service : string) : json :=
  from_yaml yaml ["openapi"; service; "base_url"] JNull.

Definition get_openapi_authentication (yaml : json) (service : string) : json :=
  from_yaml yaml ["openapi"; service; "authentication"] JNull.

(** [k in v] for a string [k]. *)
Definition py_contains (k : string) (v : json) : res bool :=
  match v with
  | JDict d => Ok (PyDict.has k d)
  | JList l => Ok (existsb (λ x, is_str x k) l)
  | JStr s => Ok (PyStr.contains k s)
  | _ => Raise (TypeError ("argument of type " +:+ py_type_repr v +:+ " is not iterable"))
  end.

(** [Config.get_openapi_auth_type(self, service)] *)
Definition get_openapi_auth_type (yaml : json) (service : string) : res json :=
  let auth := get_openapi_authentication yaml service in
  found ← (if truthy auth then py_contains "auth_type" auth else Ok false);
  if found : bool then py_getitem auth "auth_type"
  else Ok (from_yaml yaml ["openapi"; service; "auth_type"] JNull).

(** [s.strip()] strips white space; in ASCII text these are the
    characters below. *)
Definition whitespace : string :=
  String "009"%char (String "010"%char (String "011"%char (String "012"%char
    (String "013"%char (String "028"%char (String "029"%char (String "030"%char
      (String "031"%char (String " "%char ""))))))))).

Definition strip (s : string) : string := PyStr.strip whitespace s.

(** [to_list(val)] *)
Definition to_list (val : json) : json :=
  match val with
  | JNull => JNull
  | JList l => JList l
  | JStr s =>
      JList (JStr <$> (strip <$> List.filter (λ v, negb (String.eqb (strip v) ""))
                                   (PyStr.split ","%char s)))
  | _ => JNull
  end.

(** One round of [for service in self.openapi_services]: the binding that
    is appended, if one is. *)
Definition service_spec (yaml : json) (service : string) : res (option OpenAPISpec) :=
  let file_location := get_openapi_file_location yaml service in
  auth_type ← get_openapi_auth_type yaml service;
  let openapi_service := from_yaml yaml ["openapi"; service] (JDict []) in
  include_tags ← py_get_default openapi_service "include_tags" JNull;
  exlude_tags ← py_get_default openapi_service "exlude_tags" JNull;
  exclude_tags ← (if truthy exlude_tags then Ok exlude_tags
                  else py_get_default openapi_service "exclude_tags" JNull);
  include_paths ← py_get_default openapi_service "include_paths" JNull;
  exclude_paths ← py_get_default openapi_service "exclude_paths" JNull;
  if truthy file_location
  then Ok (Some {| service_name := service; file_location := file_location;
                   prefix := service; auth_type := auth_type; base_url := JNull;
                   include_tags := to_list include_tags;
                   exclude_tags := to_list exclude_tags;
                   include_paths := to_list include_paths;
                   exclude_paths := to_list exclude_paths |})
  else Ok None.

Definition append_spec (yaml : json) (specs : list OpenAPISpec) (service : string)
  : res (list OpenAPISpec) :=
  s ← service_spec yaml service;
  Ok (specs ++ option_list s).

(** The fallback of [openapi_specs]: one binding from the process
    environment. *)
Definition env_specs (E : PyEnv) : res (list OpenAPISpec) :=
  spec_path ← get_env_var E "OPENAPI_SPEC_PATH";
  base_url ← get_env_var E "OPENAPI_BASE_URL";
  auth_type ← get_env_var E "OPENAPI_AUTH_TYPE";
  service_name ← get_env_var E "OPENAPI_SERVICE_NAME";
  let service_name := default "default" service_name in
  if truthy (env_value spec_path) && truthy (env_value base_url)
  then Ok [{| service_name := service_name; file_location := env_value spec_path;
              prefix := service_name; auth_type := env_value auth_type;
              base_url := env_value base_url;
              include_tags := JNull; exclude_tags := JNull;
              include_paths := JNull; exclude_paths := JNull |}]
  else Ok [].

(** [Config.openapi_specs] *)
Definition openapi_specs (E : PyEnv) (yaml : json) : res (list OpenAPISpec) :=
  match openapi_services yaml with
  | [] => env_specs E
  | services => rfold (append_spec yaml) services []
  end.

(** The first and the last character of a string. *)
Definition first_char (s : string) : option ascii :=
  match s with
  | String c _ => Some c
  | EmptyString => None
  end.

Definition last_char (s : string) : option ascii := first_char (String.rev s).

Definition is_space (c : ascii) : bool := PyStr.mem_char c whitespace.

(** An entry of a comma-separated list, as [to_list] leaves it: not empty,
    no white space at either end. *)
Definition trimmed (s : string) : Prop :=
  s ≠ "" ∧
  (∀ c, first_char s = Some c → is_space c = false) ∧
  (∀ c, last_char s = Some c → is_space c = false).

(** [", ".join(items)] *)
Fixpoint join (items : list string) : string :=
  match items with
  | [] => ""
  | [s] => s
  | s :: items' => s +:+ ", " +:+ join items'
  end.

End Config.

Module Cases5.

(** A configuration file with two services, the second without a
    [file_location]. *)
Definition two_services : json :=
  JDict [("openapi", JDict [
     ("sms", JDict [("file_location", JStr "sms.yaml");
                    ("authentication", JDict [("auth_type", JStr "Basic")]);
                    ("include_tags", JStr "send, status");
                    ("exlude_tags", JList [JStr "internal"]);
                    ("exclude_tags", JStr "ignored")]);
     ("draft", JDict [("base_url", JStr "https://draft.api")])])].

Definition sms_binding : Config.OpenAPISpec :=
  {| Config.service_name := "sms"; Config.file_location := JStr "sms.yaml";
     Config.prefix := "sms"; Config.auth_type := JStr "Basic";
     Config.base_url := JNull;
     Config.include_tags := JList [JStr "send"; JStr "status"];
     Config.exclude_tags := JList [JStr "internal"];
     Config.include_paths := JNull; Config.exclude_paths := JNull |}.

(** A process environment that names a document and a base URL. *)
Definition env_only : PyEnv :=
  {| py_str := Samples.sample_str; recursion_limit := 1000;
     json_dumps := Samples.sample_dumps; b64encode := Samples.sample_b64;
     load_openapi_spec := Samples.sample_load;
     config_base_url := λ _, None;
     config_authentication := λ _, None;
     os_environ := λ k, if String.eqb k "OPENAPI_SPEC_PATH" then Some "item.yaml"
                        else if String.eqb k "openapi_base_url" then Some "https://dummy.api"
                        else None;
     getcwd := "/work"; guess_type := λ _, None; can_open := λ _, false;
     prepare_request := λ kw, Ok kw; send := λ _, Samples.ok_reply |}.

Definition env_binding : Config.OpenAPISpec :=
  {| Config.service_name := "default"; Config.file_location := JStr "item.yaml";
     Config.prefix := "default"; Config.auth_type := JNull;
     Config.base_url := JStr "https://dummy.api";
     Config.include_tags := JNull; Config.exclude_tags := JNull;
     Config.include_paths := JNull; Config.exclude_paths := JNull |}.

End Cases5.

(* ===================================================================== *)
(** ** Dictionaries, loops and paths *)
(* ===================================================================== *)

Section DictFacts.
Context {V : Type}.
Implicit Types (d : list (string * V)) (k : string) (v : V).

Lemma dict_get_set_eq k v d : PyDict.get k (PyDict.set k v d) = Some v.
Proof.
  induction d as [|[k' v'] d IH]; simpl.
  - by rewrite String.eqb_refl.
  - destruct (String.eqb k k') eqn:Hk; simpl.
    + by rewrite String.eqb_refl.
    + by rewrite Hk.
Qed.

Lemma dict_get_set_ne k k' v d :
  k ≠ k' → PyDict.get k' (PyDict.set k v d) = PyDict.get k' d.
Proof.
  intros Hne. induction d as [|[k0 v0] d IH]; simpl.
  - destruct (String.eqb k' k) eqn:Hk; [|done].
    apply String.eqb_eq in Hk. congruence.
  - destruct (String.eqb k k0) eqn:Hk; simpl.
    + apply String.eqb_eq in Hk as <-.
      destruct (String.eqb k' k) eqn:Hk'; [|done].
      apply String.eqb_eq in Hk'. congruence.
    + by rewrite IH.
Qed.


Lemma dict_set_nonempty k v d : PyDict.set k v d ≠ [].
Proof. destruct d as [|[k' v'] d]; simpl; [done|]. by destruct (String.eqb k k'). Qed.

Lemma dict_has_set k v d : PyDict.has k (PyDict.set k v d) = true.
Proof. unfold PyDict.has. by rewrite dict_get_set_eq. Qed.
End DictFacts.

(** A property kept by every round of a loop is kept by the loop. *)
Lemma rfold_invariant {A B} (P : A → Prop) (f : A → B → res A) (l : list B) :
  (∀ a x a', P a → f a x = Ok a' → P a') →
  ∀ a a', P a → rfold f l a = Ok a' → P a'.
Proof.
  intros Hstep. induction l as [|x l IH]; intros a a' Ha Hrun; simpl in Hrun.
  - by simplify_eq.
  - destruct (f a x) as [a1|e] eqn:Hf; simpl in Hrun; [|done].
    eapply IH; [|done]. by eapply Hstep.
Qed.




(* ===================================================================== *)
(** ** The dispatcher: required arguments *)
(* ===================================================================== *)

Lemma check_required_first_missing (required : list string) (arguments : pydict) :
  (∃ req, req ∈ required ∧ PyDict.has req arguments = false) →
  ∃ pre x post,
    required = pre ++ x :: post ∧
    Forall (λ r, PyDict.has r arguments = true) pre ∧
    PyDict.has x arguments = false ∧
    check_required required arguments =
      Raise (ValueError ("Missing required argument: " +:+ x)).
Proof.
  induction required as [|r required IH]; intros (req & Hin & Hreq).
  - by apply elem_of_nil in Hin.
  - simpl. destruct (PyDict.has r arguments) eqn:Hr; simpl.
    + destruct IH as (pre & x & post & -> & Hpre & Hx & Hrun).
      { exists req. split; [|done].
        apply elem_of_cons in Hin as [->|Hin]; [congruence|done]. }
      exists (r :: pre), x, post. split_and!; auto.
    + exists [], r, required. split_and!; auto.
Qed.

(** C2.  For a registered tool and any arguments from which a required
    field is absent, [call_tool] raises [ValueError("Missing required
    argument: X")], X being the first field of the required list, in its
    order, that the arguments lack; and the call has then done nothing: no
    file was opened and no request was sent. *)
Theorem call_tool_missing_required (E : PyEnv) (self : OpenAPIToolCaller)
    (tool_name : string) (arguments : pydict) (tool : Tool) (meta : OperationMeta) :
  tools self !! tool_name = Some tool →
  registry self !! tool_name = Some meta →
  (∃ req, req ∈ required (inputSchema tool) ∧ PyDict.has req arguments = false) →
  ∃ pre x post,
    required (inputSchema tool) = pre ++ x :: post ∧
    Forall (λ r, PyDict.has r arguments = true) pre ∧
    PyDict.has x arguments = false ∧
    call_tool E self tool_name arguments =
      (Raise (ValueError ("Missing required argument: " +:+ x)), []).
Proof.
  intros Htool Hmeta Hmissing.
  destruct (check_required_first_missing _ _ Hmissing)
    as (pre & x & post & Hreq & Hpre & Hx & Hrun).
  exists pre, x, post. split_and!; try done.
  unfold call_tool, build_request, request_base, lookup_tool.
  rewrite Htool, Hmeta. simpl. by rewrite Hrun.
Qed.

Lemma call_tool_missing_required_witness :
  tools Samples.item_caller !! "test:getItem" = Some Samples.item_tool ∧
  registry Samples.item_caller !! "test:getItem" = Some Samples.item_meta ∧
  ∃ pre x post,
    required (inputSchema Samples.item_tool) = pre ++ x :: post ∧
    Forall (λ r, PyDict.has r ([] : pydict) = true) pre ∧
    PyDict.has x ([] : pydict) = false ∧
    call_tool Samples.env Samples.item_caller "test:getItem" [] =
      (Raise (ValueError ("Missing required argument: " +:+ x)), []).
Proof.
  assert (H1 : tools Samples.item_caller !! "test:getItem" = Some Samples.item_tool)
    by (vm_compute; reflexivity).
  assert (H2 : registry Samples.item_caller !! "test:getItem" = Some Samples.item_meta)
    by (vm_compute; reflexivity).
  split; [exact H1|]. split; [exact H2|].
  apply (call_tool_missing_required Samples.env Samples.item_caller
           "test:getItem" [] Samples.item_tool Samples.item_meta H1 H2).
  exists "id". split; [|reflexivity].
  simpl. apply list_elem_of_here.
Defined.

(* ===================================================================== *)
(** ** The dispatcher: request headers *)
(* ===================================================================== *)

(** C1.  [create_headers] lays the derived [Content-Type] over the headers
    of the caller, and the result over the auth header: a caller that
    supplies [Content-Type: text/plain] for an operation whose media type is
    [application/json] gets a request that carries
    [Content-Type: application/json].  The comment in the function says that
    user headers take precedence. *)
Theorem create_headers_overrides_caller_content_type :
  headers (partition_arguments Samples.item_meta Samples.item_arguments)
    = [("Content-Type", JStr "text/plain")] ∧
  create_headers Samples.env Samples.item_meta [("Content-Type", JStr "text/plain")]
    = Ok [("Authorization", JStr "Basic b64:key:secret");
          ("Content-Type", JStr "application/json")] ∧
  ∃ request,
    call_tool Samples.env Samples.item_caller "test:getItem" Samples.item_arguments
      = (Ok (JDict []), [EvSend request]) ∧
    PyDict.get "Content-Type" (rq_headers request) = Some (JStr "application/json").
Proof.
  split; [vm_compute; reflexivity|].
  split; [vm_compute; reflexivity|].
  eexists. split; [vm_compute; reflexivity|].
  vm_compute; reflexivity.
Qed.

(* ===================================================================== *)
(** ** The dispatcher: attachment handles *)
(* ===================================================================== *)

(** Once the loop over the attachments has completed, the [finally]
    block closes every handle in [files], whatever [prepare_request] and
    [send] do. *)
Lemma send_request_closes_files (E : PyEnv) (kw : RequestKwargs) (files : list FilePart) :
  ∃ tr, snd (send_request E kw files) = tr ++ close_files files ∧
        Forall (λ e, match e with EvSend _ => True | _ => False end) tr.
Proof.
  unfold send_request, try_send.
  destruct (prepare_request E kw) as [prepped|e]; simpl.
  - exists [EvSend prepped]. split; [done|]. by repeat constructor.
  - exists []. split; [done|]. constructor.
Qed.

(** The loop over the attachments only adds to [files]. *)
Lemma open_attachments_extends E attachments files files' tr :
  open_attachments E attachments files = (Ok files', tr) →
  ∃ new, files' = files ++ new.
Proof.
  revert files files' tr.
  induction attachments as [|file_path attachments IH]; intros files files' tr; simpl.
  - intros [= <- <-]. exists []. by rewrite app_nil_r.
  - destruct file_path as [| | | |fp| |]; try done.
    destruct (can_open E _); [|done].
    destruct (open_attachments E attachments _) as [r tr'] eqn:Hrest.
    intros [= -> <-]. apply IH in Hrest as [new ->].
    eexists. by rewrite <- app_assoc.
Qed.

(** Every handle the loop opens is in [files] when the loop completes. *)
Lemma open_attachments_handles E attachments files files' tr h p :
  open_attachments E attachments files = (Ok files', tr) →
  EvOpen h p ∈ tr → h ∈ fp_handle <$> files'.
Proof.
  revert files files' tr.
  induction attachments as [|file_path attachments IH]; intros files files' tr; simpl.
  - intros [= <- <-] Hin. by apply elem_of_nil in Hin.
  - destruct file_path as [| | | |fp| |]; try done.
    destruct (can_open E _); [|done].
    destruct (open_attachments E attachments _) as [r tr'] eqn:Hrest.
    intros [= -> <-] Hin. apply elem_of_cons in Hin as [Heq|Hin].
    + injection Heq as -> ->.
      apply open_attachments_extends in Hrest as [new ->].
      rewrite !fmap_app. simpl. set_solver.
    + by eapply IH.
Qed.

(** When the loop over the attachments completes, the dispatch closes
    every handle it has opened, whether the request is prepared and sent or
    not. *)
Lemma call_tool_closes_what_the_loop_opened E self tool_name arguments kw files tr :
  build_request E self tool_name arguments = (Ok (kw, files), tr) →
  ∀ h p, EvOpen h p ∈ snd (call_tool E self tool_name arguments) →
         EvClose h ∈ snd (call_tool E self tool_name arguments).
Proof.
  intros Hbuild h p. unfold call_tool. rewrite Hbuild.
  destruct (send_request_closes_files E kw files) as (trs & Htrs & Hsend).
  destruct (send_request E kw files) as [r tr'] eqn:Hreq. simpl in *. subst tr'.
  rewrite !elem_of_app. intros [Hin|[Hin|Hin]].
  - right; right. unfold close_files.
    enough (h ∈ fp_handle <$> files) as Hh.
    { apply list_elem_of_fmap in Hh as (f & -> & Hf).
      apply list_elem_of_fmap. by exists f. }
    unfold build_request in Hbuild.
    destruct (request_base E self tool_name arguments) as [[[kw0 body] ct]|e]; [|done].
    unfold encode_body in Hbuild.
    repeat match type of Hbuild with
           | (if ?c then _ else _) = _ => destruct c
           end; try (simplify_eq; by apply elem_of_nil in Hin).
    destruct (py_get body "attachment") as [atts|e]; [|done].
    destruct (negb (truthy (default JNull atts)));
      [simplify_eq; by apply elem_of_nil in Hin|].
    destruct (open_attachments E _ []) as [[fs|e] tr0] eqn:Hopen; [|done].
    simplify_eq. by eapply open_attachments_handles.
  - rewrite Forall_forall in Hsend. by apply Hsend in Hin.
  - unfold close_files in Hin. apply list_elem_of_fmap in Hin as (f & Hf & _). done.
Qed.

(** C3.  The loop that opens the attachments runs before the [try]: when
    the second attachment of a list cannot be opened, [call_tool] raises
    with the first file open, and nothing closes it. *)
Theorem attachment_handle_left_open :
  call_tool Samples.env Samples.upload_caller "test:upload" Samples.upload_arguments
    = (Raise (ValueError "Failed to open attachment file: /data/missing.txt"),
       [EvOpen 0 "/data/a.txt"]) ∧
  leaked (snd (call_tool Samples.env Samples.upload_caller "test:upload"
                 Samples.upload_arguments)) = [0%nat].
Proof. split; vm_compute; reflexivity. Qed.

(* ===================================================================== *)
(** ** The dispatcher: the response *)
(* ===================================================================== *)

(** Against C8 as stated.  A status outside 200..399 that does not make
    the dispatch fail: the request is sent, the reply has status 999 and a
    body that is no JSON, and [call_tool] returns the text. *)
Lemma status_999_is_not_an_error :
  ¬ (200 ≤ 999 < 400) ∧
  ∃ request,
    call_tool (Samples.sample_env Samples.denied_reply) Samples.item_caller
      "test:getItem" [("id", JInt 5)]
    = (Ok (JStr "denied"), [EvSend request]).
Proof. split; [lia|]. eexists. vm_compute. reflexivity. Qed.

(** C8, amended.  For a dispatch that reaches the HTTP call and gets a
    response: a 4xx or 5xx status raises [HTTPError] with the status and
    the body; with any other status the call returns the parsed JSON when
    the body parses, and the text of the body when it does not.  The request
    is sent once and the files are closed in each case. *)
Theorem call_tool_response (E : PyEnv) (self : OpenAPIToolCaller) (tool_name : string)
    (arguments : pydict) (kw prepped : RequestKwargs) (files : list FilePart)
    (tr : list event) (resp : Response) :
  build_request E self tool_name arguments = (Ok (kw, files), tr) →
  prepare_request E kw = Ok prepped →
  send E prepped = Ok resp →
  snd (call_tool E self tool_name arguments) = tr ++ [EvSend prepped] ++ close_files files ∧
  (error_status (status_code resp) →
   fst (call_tool E self tool_name arguments)
     = Raise (HTTPError (status_code resp) (text resp))) ∧
  (¬ error_status (status_code resp) →
   (∀ v, json_body resp = Ok v → fst (call_tool E self tool_name arguments) = Ok v) ∧
   (∀ e, json_body resp = Raise e →
         fst (call_tool E self tool_name arguments) = Ok (JStr (text resp)))).
Proof.
  intros Hbuild Hprep Hsend.
  unfold call_tool, send_request, try_send. rewrite Hbuild, Hprep, Hsend. simpl.
  unfold error_status, handle_response, raise_for_status.
  split; [done|]. split.
  - intros [Hlo Hhi].
    apply Z.leb_le in Hlo. apply Z.ltb_lt in Hhi. by rewrite Hlo, Hhi.
  - intros Hstatus.
    assert ((400 <=? status_code resp) && (status_code resp <? 600) = false) as ->.
    { apply andb_false_iff.
      destruct (Z.leb_spec 400 (status_code resp)); [|by left].
      destruct (Z.ltb_spec (status_code resp) 600); [|by right]. lia. }
    simpl. split; [intros v ->|intros e ->]; done.
Qed.

Lemma call_tool_response_witness :
  let E := Samples.env in
  let kw := {| rq_method := "GET"; rq_url := "https://dummy.api/items/5";
               rq_params := None;
               rq_headers := [("Authorization", JStr "Basic b64:key:secret");
                              ("Content-Type", JStr "application/json")];
               rq_json := None; rq_data := None; rq_files := [] |} in
  let resp := {| status_code := 200; text := "{}"; json_body := Ok (JDict []) |} in
  build_request E Samples.item_caller "test:getItem" [("id", JInt 5)] = (Ok (kw, []), []) ∧
  prepare_request E kw = Ok kw ∧
  send E kw = Ok resp ∧
  ¬ error_status (status_code resp) ∧
  fst (call_tool E Samples.item_caller "test:getItem" [("id", JInt 5)]) = Ok (JDict []).
Proof.
  intros E kw resp.
  assert (H1 : build_request E Samples.item_caller "test:getItem" [("id", JInt 5)]
               = (Ok (kw, []), [])) by (vm_compute; reflexivity).
  assert (H2 : prepare_request E kw = Ok kw) by reflexivity.
  assert (H3 : send E kw = Ok resp) by reflexivity.
  assert (H4 : ¬ error_status (status_code resp)) by (unfold error_status; simpl; lia).
  split; [exact H1|]. split; [exact H2|]. split; [exact H3|]. split; [exact H4|].
  destruct (call_tool_response E Samples.item_caller "test:getItem" [("id", JInt 5)]
              kw kw [] [] resp H1 H2 H3) as (_ & _ & Hok).
  destruct (Hok H4) as [Hjson _]. apply Hjson. reflexivity.
Defined.

(* ===================================================================== *)
(** ** The registry: what a construction keeps *)
(* ===================================================================== *)

(** A round of the loop over the methods leaves the caller as it was,
    or changes the stored document only, or records one tool on top of
    that. *)
Lemma add_operation_cases (E : PyEnv) (a : AddArgs) (path : string)
    (self self' : OpenAPIToolCaller) (method_v : json) :
  add_operation E a path self method_v = Ok self' →
  self' = self ∨ (∃ st, self' = set_store self st) ∨
  (∃ st method tool pl cmt,
     self' = record_tool a path method tool pl cmt (set_store self st)).
Proof.
  unfold add_operation. destruct method_v as [| | | |method| |]; try done.
  destruct (negb (is_http_method method)); [intros; simplify_eq; by left|].
  destruct (filter_round _ _ _ _) as [[operation rejected]|e]; simpl; [|done].
  destruct rejected; [intros; simplify_eq; by left|].
  destruct (generate_tool_from_operation _ _ _ _ _) as [built spec'].
  destruct built as [tool|e].
  - destruct (as_mapping _) as [op|e]; simpl; [|done].
    destruct (operation_meta_fields op) as [[pl cmt]|e]; simpl; [|done].
    intros; simplify_eq. right; right. by eexists _, _, _, _, _.
  - intros; simplify_eq. right; left. by eexists.
Qed.

Section Construction.
Context (P : OpenAPIToolCaller → Prop) (Q : AddArgs → Prop).
Hypothesis P_set_store : ∀ self st, P self → P (set_store self st).
Hypothesis P_record_tool : ∀ a path method tool pl cmt self,
  Q a → P self → P (record_tool a path method tool pl cmt self).

Lemma add_operation_keeps E a path self self' method_v :
  Q a → P self → add_operation E a path self method_v = Ok self' → P self'.
Proof using P_set_store P_record_tool.
  intros Ha Hself Hrun.
  destruct (add_operation_cases _ _ _ _ _ _ Hrun)
    as [->|[[st ->]|(st & m & tool & pl & cmt & ->)]]; auto.
Qed.

Lemma method_loop_keeps E a path methods self self' :
  Q a → P self → rfold (add_operation E a path) methods self = Ok self' → P self'.
Proof using P_set_store P_record_tool.
  intros Ha. apply rfold_invariant. intros s x s' Hs Hrun.
  by eapply add_operation_keeps.
Qed.

Lemma path_loop_keeps E a entries self self' :
  Q a → P self → rfold (add_path E a) entries self = Ok self' → P self'.
Proof using P_set_store P_record_tool.
  intros Ha. apply rfold_invariant. intros s [path item] s' Hs.
  unfold add_path. simpl. destruct (py_iter item) as [methods|e]; simpl; [|done].
  by apply method_loop_keeps.
Qed.

Lemma add_tools_keeps E a self self' :
  Q a → P self → _add_tools_from_spec E a self = Ok self' → P self'.
Proof using P_set_store P_record_tool.
  intros Ha Hself. unfold _add_tools_from_spec.
  destruct (py_get_default _ _ _) as [paths|e]; simpl; [|done].
  destruct (py_items paths) as [entries|e]; simpl; [|done].
  by apply path_loop_keeps.
Qed.

Hypothesis Q_init : ∀ a, arg_base_url a ≠ "" → Q a.

Lemma init_spec_keeps E self self' spec_obj :
  P self → init_spec E self spec_obj = Ok self' → P self'.
Proof using P_set_store P_record_tool Q_init.
  intros Hself. unfold init_spec.
  destruct (load_openapi_spec E _) as [spec|e]; [|intros; by simplify_eq].
  match goal with |- context [match ?u with Some _ => _ | None => _ end = _] =>
    destruct u as [u'|] end; [|intros; by simplify_eq].
  destruct (String.eqb u' "") eqn:Hu; [intros; by simplify_eq|].
  apply add_tools_keeps; [|by apply P_set_store].
  apply Q_init. simpl. intros ->. by rewrite String.eqb_refl in Hu.
Qed.

Lemma spec_loop_keeps E specs self self' :
  P self → rfold (init_spec E) specs self = Ok self' → P self'.
Proof using P_set_store P_record_tool Q_init.
  apply rfold_invariant. intros s x s' Hs. by apply init_spec_keeps.
Qed.
End Construction.




Lemma same_keys_record_tool a path method tool pl cmt self :
  same_keys self → same_keys (record_tool a path method tool pl cmt self).
Proof.
  unfold same_keys, record_tool. simpl. rewrite !dom_insert_L.
  intros (-> & -> & ->). done.
Qed.

Lemma base_urls_set_record_tool a path method tool pl cmt self :
  arg_base_url a ≠ "" → base_urls_set self →
  base_urls_set (record_tool a path method tool pl cmt self).
Proof.
  unfold base_urls_set, record_tool. simpl. intros Ha Hself n u.
  destruct (decide (name tool = n)) as [->|Hne].
  - rewrite lookup_insert_eq. intros; by simplify_eq.
  - rewrite lookup_insert_ne by done. apply Hself.
Qed.

(* ===================================================================== *)
(** ** The registry: the four maps *)
(* ===================================================================== *)

(** C10.  When [__init__] has built the caller, the four maps
    [tools], [registry], [tool_base_urls] and [tool_specs] have the same
    keys, and for every registered name [call_tool] finds the tool, its
    metadata and a base URL that passes the test [if not base_url]: the
    branch that raises "No base URL found" is not taken. *)
Theorem registry_maps_agree (E : PyEnv) (openapi_specs : list OpenAPISpec)
    (self : OpenAPIToolCaller) :
  __init__ E openapi_specs = Ok self →
  same_keys self ∧
  ∀ tool_name, tool_name ∈ dom (tools self) →
    ∃ tool meta u,
      lookup_tool self tool_name = Ok (tool, meta) ∧
      check_base_url self tool_name = Ok u.
Proof.
  intros Hinit.
  assert (same_keys self ∧ base_urls_set self) as [Hkeys Hurls].
  { apply (spec_loop_keeps (λ s, same_keys s ∧ base_urls_set s)
             (λ a, arg_base_url a ≠ "")) with E openapi_specs new_caller;
      [done| |done| |done].
    - intros a path m tool pl cmt s Ha [H1 H2]. split.
      + by apply same_keys_record_tool.
      + by apply base_urls_set_record_tool.
    - split; [done|]. intros n u. unfold new_caller. simpl.
      by rewrite lookup_empty. }
  split; [done|]. intros n Hn.
  destruct Hkeys as (Hk1 & Hk2 & Hk3).
  assert (n ∈ dom (registry self)) as Hr by (by rewrite <- Hk1).
  assert (n ∈ dom (tool_base_urls self)) as Hu by (by rewrite <- Hk2).
  apply elem_of_dom in Hn as [tool Htool].
  apply elem_of_dom in Hr as [meta Hmeta].
  apply elem_of_dom in Hu as [u Hu].
  exists tool, meta, u. unfold lookup_tool, check_base_url.
  rewrite Htool, Hmeta, Hu. split; [done|].
  destruct (String.eqb u "") eqn:Heq; [|done].
  apply String.eqb_eq in Heq. by apply Hurls in Hu.
Qed.

Lemma registry_maps_agree_witness :
  __init__ Samples.env [Samples.binding "item.yaml"] = Ok Samples.item_caller ∧
  same_keys Samples.item_caller ∧
  ∀ tool_name, tool_name ∈ dom (tools Samples.item_caller) →
    ∃ tool meta u,
      lookup_tool Samples.item_caller tool_name = Ok (tool, meta) ∧
      check_base_url Samples.item_caller tool_name = Ok u.
Proof.
  assert (H : __init__ Samples.env [Samples.binding "item.yaml"] = Ok Samples.item_caller)
    by (vm_compute; reflexivity).
  split; [exact H|].
  exact (registry_maps_agree Samples.env [Samples.binding "item.yaml"]
           Samples.item_caller H).
Defined.

(* ===================================================================== *)
(** ** The registry: the methods that are looked at *)
(* ===================================================================== *)





(* ===================================================================== *)
(** ** The registry: the filters *)
(* ===================================================================== *)






(* ===================================================================== *)
(** ** The example synthesizer *)
(* ===================================================================== *)



(* ===================================================================== *)
(** ** The builder: the request body *)
(* ===================================================================== *)

Lemma string_app_cons (c : ascii) (a b : string) :
  String c a +:+ b = String c (a +:+ b).
Proof. reflexivity. Qed.








(* ===================================================================== *)
(** ** The builder: what it writes into the document *)
(* ===================================================================== *)










(* ===================================================================== *)
(** ** The reference resolver *)
(* ===================================================================== *)

(** Following the parts of a pointer through [obj[part]] succeeds exactly
    when the path of keys exists in the document. *)
Lemma rfold_getitem_path (parts : list string) (doc x : json) :
  rfold py_getitem parts doc = Ok x ↔ get_path parts doc = Some x.
Proof.
  revert doc. induction parts as [|k parts IH]; intros doc; simpl.
  - split; intros; by simplify_eq.
  - destruct doc as [| | | | | |d]; simpl; try (split; by intros).
    destruct (PyDict.get k d) as [y|]; simpl; [apply IH|split; by intros].
Qed.

Lemma lstrip_idempotent (cs s : string) :
  PyStr.lstrip cs (PyStr.lstrip cs s) = PyStr.lstrip cs s.
Proof.
  induction s as [|c s IH]; simpl; [done|].
  destruct (PyStr.mem_char c cs) eqn:Hc; [done|]. simpl. by rewrite Hc.
Qed.

(** X1.  [_resolve_ref] returns a node exactly when the reference starts
    with [#/] and the keys that follow, split at the slashes, lead to that
    node from the root of the document; a reference that does not start
    with [#/] raises the [ValueError] for non-local references, whatever the
    document holds. *)
Theorem resolve_ref_follows_the_keys (spec : json) (r : string) :
  (∀ x, _resolve_ref spec (JStr r) = Ok x ↔
        PyStr.startswith "#/" r = true ∧
        get_path (PyStr.split "/" (PyStr.lstrip "#/" r)) spec = Some x) ∧
  (PyStr.startswith "#/" r = false →
   _resolve_ref spec (JStr r)
   = Raise (ValueError ("Only local refs are supported, got: " +:+ r))).
Proof.
  unfold _resolve_ref. split.
  - intros x. destruct (PyStr.startswith "#/" r); simpl.
    + rewrite rfold_getitem_path. naive_solver.
    + split; [done|]. intros [Hfalse _]. discriminate Hfalse.
  - by intros ->.
Qed.

Lemma resolve_ref_follows_the_keys_witness :
  _resolve_ref Samples.body_doc (JStr "#/paths") = 
    Ok (JDict [("/notes", JDict [("post", JDict Samples.note_operation)])]) ∧
  _resolve_ref Samples.body_doc (JStr "other.yaml#/paths")
  = Raise (ValueError "Only local refs are supported, got: other.yaml#/paths").
Proof.
  destruct (resolve_ref_follows_the_keys Samples.body_doc "#/paths") as [Hok _].
  destruct (resolve_ref_follows_the_keys Samples.body_doc "other.yaml#/paths")
    as [_ Herr].
  split; [apply Hok; by split | apply Herr; reflexivity].
Defined.

(** X2.  The marker is removed with [lstrip("#/")], which takes away every
    leading [#] and [/]: a reference and the same reference with further
    such characters after the marker resolve alike, so a first key that
    begins with one of the two characters cannot be named. *)
Theorem resolve_ref_strips_leading_marker_characters (spec : json) (s : string) :
  _resolve_ref spec (JStr ("#/" +:+ s))
  = _resolve_ref spec (JStr ("#/" +:+ PyStr.lstrip "#/" s)).
Proof.
  unfold _resolve_ref.
  change ("#/" +:+ s) with (String "#" (String "/" s)).
  change ("#/" +:+ PyStr.lstrip "#/" s)
    with (String "#" (String "/" (PyStr.lstrip "#/" s))).
  simpl.
  assert (Hempty : ∀ t, PyStr.startswith "" t = true) by (by intros []).
  rewrite !Hempty. simpl. by rewrite lstrip_idempotent.
Qed.

(* ===================================================================== *)
(** ** The example synthesizer: further properties *)
(* ===================================================================== *)

(** X3.  On a node without [$ref], [_extract_example_text] and the
    synthesizer agree: either the text is empty and the node has neither an
    [example] nor a usable entry in [examples], or the text is
    [" Example: "] followed by the very value that
    [generate_example_from_schema] returns. *)
Theorem example_text_agrees_with_synthesizer (E : PyEnv) (depth : nat) (spec : json)
    (schema : pydict) :
  PyDict.get "$ref" schema = None →
  (_extract_example_text E schema = "" ∧
   PyDict.get "example" schema = None ∧ examples_entry schema = None) ∨
  (∃ v, _extract_example_text E schema = " Example: " +:+ fmt E v ∧
        generate_example_from_schema (S depth) spec (JDict schema) = Ok v).
Proof.
  intros Href. unfold _extract_example_text.
  cbn [generate_example_from_schema as_mapping]. simpl. rewrite Href. simpl.
  destruct (PyDict.get "example" schema) as [ex|]; [right; by exists ex|].
  destruct (examples_entry schema) as [v|]; [right; by exists v|].
  by left.
Qed.

Lemma example_text_agrees_with_synthesizer_witness :
  ∃ v, _extract_example_text Samples.env
         [("type", JStr "string"); ("examples", JDict [("first", JDict [("value", JStr "qux")])])]
       = " Example: " +:+ fmt Samples.env v ∧
       generate_example_from_schema 1 JNull
         (JDict [("type", JStr "string");
                 ("examples", JDict [("first", JDict [("value", JStr "qux")])])])
       = Ok v.
Proof.
  destruct (example_text_agrees_with_synthesizer Samples.env 0 JNull
              [("type", JStr "string");
               ("examples", JDict [("first", JDict [("value", JStr "qux")])])] eq_refl)
    as [(Hempty & _)|Hsome].
  - vm_compute in Hempty. discriminate Hempty.
  - exact Hsome.
Defined.

(** X4.  Nothing guards the synthesizer against a schema that contains
    itself: when the first property of an object node is a [$ref] that
    resolves to the node, every call on the node, and every call on the
    reference, ends in [RecursionError], however many frames there are. *)
Theorem self_reference_exhausts_the_stack (spec : json) (node : pydict) (ref : json)
    (k : string) (rest : pydict) :
  plain_node node →
  PyDict.get "type" node = Some (JStr "object") →
  PyDict.get "properties" node = Some (JDict ((k, JDict [("$ref", ref)]) :: rest)) →
  _resolve_ref spec ref = Ok (JDict node) →
  ∀ depth,
    generate_example_from_schema depth spec (JDict node) = Raise RecursionError ∧
    generate_example_from_schema depth spec (JDict [("$ref", ref)]) = Raise RecursionError.
Proof.
  intros (Href & Hex & Hexs & Hdef & Henum) Htype Hprops Hres.
  assert (Hbody : ∀ depth,
            generate_example_from_schema depth spec (JDict [("$ref", ref)])
            = Raise RecursionError →
            generate_example_from_schema (S depth) spec (JDict node) = Raise RecursionError ∧
            generate_example_from_schema (S depth) spec (JDict [("$ref", ref)])
            = Raise RecursionError).
  { intros depth IH.
    cbn [generate_example_from_schema as_mapping]. simpl.
    rewrite Href, Hres. simpl.
    rewrite Hex, Hexs, Hdef, Henum, Htype, Hprops. simpl.
    by rewrite IH. }
  induction depth as [|depth [_ IH]]; [done|].
  by apply Hbody.
Qed.

Lemma self_reference_exhausts_the_stack_witness :
  plain_node Cases.node_schema ∧
  _resolve_ref Cases.cyclic_doc Cases.node_ref = Ok (JDict Cases.node_schema) ∧
  generate_example_from_schema 1000 Cases.cyclic_doc (JDict Cases.node_schema)
  = Raise RecursionError.
Proof.
  assert (H1 : plain_node Cases.node_schema) by (by repeat split).
  assert (H2 : _resolve_ref Cases.cyclic_doc Cases.node_ref = Ok (JDict Cases.node_schema))
    by reflexivity.
  split; [exact H1|]. split; [exact H2|].
  exact (proj1 (self_reference_exhausts_the_stack Cases.cyclic_doc Cases.node_schema
                  Cases.node_ref "next" _ H1 eq_refl eq_refl H2 1000%nat)).
Defined.

Lemma rfold_mono {A B} (f g : A → B → res A) (l : list B) :
  (∀ a x r, f a x = Ok r → g a x = Ok r) →
  ∀ a r, rfold f l a = Ok r → rfold g l a = Ok r.
Proof.
  intros Hfg. induction l as [|x l IH]; intros a r; simpl; [done|].
  destruct (f a x) as [a1|e] eqn:Hf; simpl; [|done].
  rewrite (Hfg _ _ _ Hf). simpl. apply IH.
Qed.

Lemma generate_unfold (depth : nat) (spec schema : json) :
  generate_example_from_schema (S depth) spec schema
  = synth_step (generate_example_from_schema depth spec) spec schema.
Proof.
  unfold synth_step, resolve_root. cbn [generate_example_from_schema].
  destruct (as_mapping schema) as [schema0|e]; simpl; [|done].
  destruct (match PyDict.get "$ref" schema0 with
            | Some ref => _resolve_ref spec ref
            | None => Ok schema
            end) as [resolved|e]; simpl; [|done].
  destruct (as_mapping resolved) as [schema1|e]; simpl; [|done].
  destruct (PyDict.get "example" schema1); simpl; [done|].
  destruct (examples_entry schema1); simpl; [done|].
  destruct (PyDict.get "default" schema1); simpl; [done|].
  destruct (enum_head schema1); simpl; [done|]. reflexivity.
Qed.

Lemma synth_step_mono (f g : json → res json) (spec schema v : json) :
  (∀ s w, f s = Ok w → g s = Ok w) →
  synth_step f spec schema = Ok v → synth_step g spec schema = Ok v.
Proof.
  intros Hfg. unfold synth_step.
  destruct (resolve_root spec schema) as [schema1|e]; simpl; [|done].
  destruct (PyDict.get "example" schema1); simpl; [done|].
  destruct (examples_entry schema1); simpl; [done|].
  destruct (PyDict.get "default" schema1); simpl; [done|].
  destruct (enum_head schema1); simpl; [done|].
  unfold type_rule.
  destruct (is_str _ "object").
  { destruct (py_items _) as [props|e]; simpl; [|done].
    destruct (rfold _ props []) as [obj|e] eqn:Hfold; simpl; [|done].
    intros [= <-].
    erewrite rfold_mono; [reflexivity| |exact Hfold].
    intros acc kv r. simpl.
    destruct (f kv.2) as [w|e] eqn:Hw; simpl; [|done].
    by rewrite (Hfg _ _ Hw). }
  destruct (is_str _ "array"); [|done].
  destruct (f _) as [w|e] eqn:Hw; simpl; [|done].
  by rewrite (Hfg _ _ Hw).
Qed.

(** X5.  A value that the synthesizer returns with some number of frames is
    the value it returns with any greater number: the result does not
    depend on the recursion limit once the limit suffices. *)
Theorem synthesizer_result_is_stable (spec : json) (depth extra : nat) (schema v : json) :
  generate_example_from_schema depth spec schema = Ok v →
  generate_example_from_schema (depth + extra) spec schema = Ok v.
Proof.
  assert (Hstep : ∀ depth schema v,
            generate_example_from_schema depth spec schema = Ok v →
            generate_example_from_schema (S depth) spec schema = Ok v).
  { clear. induction depth as [|depth IH]; intros schema v; [done|].
    rewrite !generate_unfold. by apply synth_step_mono. }
  intros H. induction extra as [|extra IH].
  - by rewrite Nat.add_0_r.
  - rewrite Nat.add_succ_r. by apply Hstep.
Qed.

Lemma synthesizer_result_is_stable_witness :
  generate_example_from_schema (2 + 998) JNull
    (JDict [("type", JStr "array"); ("items", JDict [("type", JStr "boolean")])])
  = Ok (JList [JBool true]).
Proof.
  apply (synthesizer_result_is_stable JNull 2 998). reflexivity.
Defined.

Lemma dict_keys_set_fresh {V} (k : string) (v : V) (d : list (string * V)) :
  k ∉ PyDict.keys d → PyDict.keys (PyDict.set k v d) = PyDict.keys d ++ [k].
Proof.
  unfold PyDict.keys. induction d as [|[k' v'] d IH]; simpl; [done|].
  intros Hk. apply not_elem_of_cons in Hk as [Hne Hk].
  destruct (String.eqb k k') eqn:Heq.
  - apply String.eqb_eq in Heq. done.
  - simpl. by rewrite IH.
Qed.

Lemma object_example_keys (g : json → res json) (props acc obj : pydict) :
  NoDup (PyDict.keys acc ++ PyDict.keys props) →
  rfold (λ (acc : pydict) (kv : string * json),
           v ← g kv.2; Ok (PyDict.set kv.1 v acc)) props acc = Ok obj →
  PyDict.keys obj = PyDict.keys acc ++ PyDict.keys props.
Proof.
  revert acc. induction props as [|[k s] props IH]; intros acc Hnd; simpl.
  - intros [= <-]. by rewrite app_nil_r.
  - destruct (g s) as [v|e]; simpl; [|done]. intros Hrun.
    apply IH in Hrun.
    + rewrite Hrun, dict_keys_set_fresh, <- app_assoc; [done|].
      apply NoDup_app in Hnd as (_ & Hnd & _). intros Hk.
      apply (Hnd k Hk). unfold PyDict.keys. simpl. apply list_elem_of_here.
    + rewrite dict_keys_set_fresh, <- app_assoc; [done|].
      apply NoDup_app in Hnd as (_ & Hnd & _). intros Hk.
      apply (Hnd k Hk). unfold PyDict.keys. simpl. apply list_elem_of_here.
Qed.

(** X6.  For an object node that none of the first four rules applies to,
    the value returned is a dict with the keys of [properties], in the
    order of [properties]. *)
Theorem object_example_has_the_property_keys (depth : nat) (spec : json)
    (node props : pydict) (v : json) :
  plain_node node →
  PyDict.get "type" node = Some (JStr "object") →
  PyDict.get "properties" node = Some (JDict props) →
  NoDup (PyDict.keys props) →
  generate_example_from_schema depth spec (JDict node) = Ok v →
  ∃ obj, v = JDict obj ∧ PyDict.keys obj = PyDict.keys props.
Proof.
  intros (Href & Hex & Hexs & Hdef & Henum) Htype Hprops Hnd.
  destruct depth as [|depth]; [done|].
  cbn [generate_example_from_schema as_mapping]. simpl. rewrite Href. simpl.
  rewrite Hex, Hexs, Hdef, Henum, Htype, Hprops. simpl.
  destruct (rfold _ props []) as [obj|e] eqn:Hfold; simpl; [|done].
  intros [= <-]. exists obj. split; [done|].
  by apply object_example_keys in Hfold.
Qed.

Lemma object_example_has_the_property_keys_witness :
  plain_node Cases.pair_schema ∧
  NoDup (PyDict.keys Cases.pair_props) ∧
  ∃ obj,
    generate_example_from_schema 2 JNull (JDict Cases.pair_schema) = Ok (JDict obj) ∧
    PyDict.keys obj = ["b"; "a"].
Proof.
  assert (H1 : plain_node Cases.pair_schema) by (by repeat split).
  assert (H2 : NoDup (PyDict.keys Cases.pair_props)).
  { unfold PyDict.keys. simpl. repeat constructor; set_solver. }
  split; [exact H1|]. split; [exact H2|].
  destruct (generate_example_from_schema 2 JNull (JDict Cases.pair_schema))
    as [v|e] eqn:Hrun; [|vm_compute in Hrun; discriminate Hrun].
  destruct (object_example_has_the_property_keys 2 JNull Cases.pair_schema
              Cases.pair_props v H1 eq_refl eq_refl H2 Hrun)
    as (obj & -> & Hkeys).
  by exists obj.
Defined.


(* ===================================================================== *)
(** ** The builder: parameters and names *)
(* ===================================================================== *)

(** One round of the loop over the parameters: the parameter is a dict
    with a string name; the property filed under the name is a dict built
    for it; the name is appended to the required list when the flag is
    truthy. *)
Lemma extract_parameter_step E spec props req param props1 req1 :
  extract_parameter E spec (props, req) param = Ok (props1, req1) →
  ∃ d n prop,
    param = JDict d ∧ PyDict.get "name" d = Some (JStr n) ∧
    props1 = PyDict.set n (PFresh (JDict prop)) props ∧
    req1 = if truthy_opt (PyDict.get "required" d) then req ++ [n] else req.
Proof.
  unfold extract_parameter.
  destruct param as [| | | | | |d]; try done. simpl.
  destruct (PyDict.get "name" d) as [name_v|] eqn:Hname; [|done]. simpl.
  destruct name_v as [| | | |n| |]; try done. simpl.
  destruct (as_mapping _) as [schema|e]; simpl; [|done].
  destruct (if PyDict.has "$ref" schema then _ else _) as [prop|e]; simpl; [|done].
  intros [= <- <-]. by exists d, n, prop.
Qed.

Lemma extract_parameters_loop E spec params props req props' req' :
  rfold (extract_parameter E spec) params (props, req) = Ok (props', req') →
  req' = req ++ required_names params ∧
  (∀ n, (∃ v, PyDict.get n props = Some (PFresh v)) →
        ∃ v, PyDict.get n props' = Some (PFresh v)) ∧
  Forall (λ param, ∃ n v, param_name param = Some n ∧
                          PyDict.get n props' = Some (PFresh v)) params.
Proof.
  revert props req.
  induction params as [|param params IH]; intros props req; simpl.
  - intros [= <- <-]. rewrite app_nil_r. by split_and!.
  - destruct (extract_parameter E spec (props, req) param) as [[props1 req1]|e] eqn:Hstep;
      simpl; [|done].
    intros Hrun. apply IH in Hrun as (Hreq & Hkeep & Hall).
    apply extract_parameter_step in Hstep as (d & n & prop & -> & Hname & -> & ->).
    split_and!.
    + rewrite Hreq. simpl. rewrite Hname.
      destruct (truthy_opt (PyDict.get "required" d)); [by rewrite <- app_assoc|done].
    + intros m [v Hm]. apply Hkeep.
      destruct (decide (n = m)) as [->|Hne].
      * rewrite dict_get_set_eq. by eexists.
      * rewrite dict_get_set_ne by done. by exists v.
    + constructor; [|done].
      destruct (Hkeep n) as [v Hv]; [rewrite dict_get_set_eq; by eexists|].
      exists n, v. simpl. by rewrite Hname.
Qed.

(** X7.  When [extract_parameters] returns, the required list is the one
    it was given followed by the names of the parameters whose [required]
    flag is truthy, in the order of the parameters and without removing
    repetitions; and every parameter has a property under its name that is
    a dict built for it, never a reference into the document. *)
Theorem extract_parameters_required_and_properties (E : PyEnv) (spec : json)
    (operation : pydict) (props props' : list (string * PropVal))
    (req req' : list string) :
  extract_parameters E spec operation props req = Ok (props', req') →
  ∃ params,
    py_iter (default (JList []) (PyDict.get "parameters" operation)) = Ok params ∧
    req' = req ++ required_names params ∧
    Forall (λ param, ∃ n v, param_name param = Some n ∧
                            PyDict.get n props' = Some (PFresh v)) params.
Proof.
  unfold extract_parameters.
  destruct (py_iter _) as [params|e]; simpl; [|done].
  intros Hrun. exists params. split; [done|].
  apply extract_parameters_loop in Hrun as (Hreq & _ & Hall). done.
Qed.

Lemma extract_parameters_required_and_properties_witness :
  ∃ props' req' params,
    extract_parameters Samples.env Cases2.search_doc Cases2.search_operation [] []
      = Ok (props', req') ∧
    py_iter (default (JList []) (PyDict.get "parameters" Cases2.search_operation))
      = Ok params ∧
    req' = [] ++ required_names params ∧
    required_names params = ["q"; "tenant"].
Proof.
  destruct (extract_parameters Samples.env Cases2.search_doc Cases2.search_operation [] [])
    as [[props' req']|e] eqn:Hrun; [|vm_compute in Hrun; discriminate Hrun].
  destruct (extract_parameters_required_and_properties _ _ _ _ _ _ _ Hrun)
    as (params & Hiter & Hreq & _).
  exists props', req', params. split; [reflexivity|]. split; [exact Hiter|].
  split; [exact Hreq|].
  vm_compute in Hiter. injection Hiter as <-. reflexivity.
Defined.




(* ===================================================================== *)
(** ** The registry: what is recorded *)
(* ===================================================================== *)

Lemma upper_lower_ascii (c : ascii) :
  PyStr.upper_ascii (PyStr.lower_ascii c) = PyStr.upper_ascii c.
Proof. by destruct c as [[] [] [] [] [] [] [] []]. Qed.

Lemma lower_upper_ascii (c : ascii) :
  PyStr.lower_ascii (PyStr.upper_ascii c) = PyStr.lower_ascii c.
Proof. by destruct c as [[] [] [] [] [] [] [] []]. Qed.

Lemma upper_upper_ascii (c : ascii) :
  PyStr.upper_ascii (PyStr.upper_ascii c) = PyStr.upper_ascii c.
Proof. by destruct c as [[] [] [] [] [] [] [] []]. Qed.

Lemma lower_lower_ascii (c : ascii) :
  PyStr.lower_ascii (PyStr.lower_ascii c) = PyStr.lower_ascii c.
Proof. by destruct c as [[] [] [] [] [] [] [] []]. Qed.

Lemma map_chars_compose (f g h : ascii → ascii) (s : string) :
  (∀ c, f (g c) = h c) →
  PyStr.map_chars f (PyStr.map_chars g s) = PyStr.map_chars h s.
Proof. intros Hc. induction s as [|c s IH]; simpl; [done|]. by rewrite Hc, IH. Qed.

Lemma upper_lower (s : string) : PyStr.upper (PyStr.lower s) = PyStr.upper s.
Proof. apply map_chars_compose, upper_lower_ascii. Qed.

Lemma lower_upper (s : string) : PyStr.lower (PyStr.upper s) = PyStr.lower s.
Proof. apply map_chars_compose, lower_upper_ascii. Qed.

Lemma upper_upper (s : string) : PyStr.upper (PyStr.upper s) = PyStr.upper s.
Proof. apply map_chars_compose, upper_upper_ascii. Qed.

Lemma lower_lower (s : string) : PyStr.lower (PyStr.lower s) = PyStr.lower s.
Proof. apply map_chars_compose, lower_lower_ascii. Qed.

(** A method that the loop looks at is stored as one of the seven
    upper-case names. *)
Lemma http_method_upper (m : string) :
  is_http_method m = true → PyStr.upper m ∈ http_methods_upper.
Proof.
  unfold is_http_method. intros Hm. apply existsb_exists in Hm as (v & Hin & Heq).
  apply String.eqb_eq in Heq. rewrite <- upper_lower, Heq.
  unfold http_methods in Hin. simpl in Hin.
  unfold http_methods_upper.
  destruct Hin as [<-|[<-|[<-|[<-|[<-|[<-|[<-|[]]]]]]]]; vm_compute; set_solver.
Qed.

(** A round of the loop over the methods that records a tool: the key is
    one of the seven methods, and the tool is what the builder returned on
    the document of the round. *)
Lemma add_operation_records (E : PyEnv) (a : AddArgs) (path : string)
    (self self' : OpenAPIToolCaller) (method_v : json) :
  add_operation E a path self method_v = Ok self' →
  self' = self ∨ (∃ st, self' = set_store self st) ∨
  (∃ method tool pl cmt spec',
     method_v = JStr method ∧ is_http_method method = true ∧
     generate_tool_from_operation E (doc_of self (arg_spec a)) path method
       (arg_filename_prefix a) = (Ok tool, spec') ∧
     self' = record_tool a path method tool pl cmt
               (set_store self (<[arg_spec a := spec']> (store self)))).
Proof.
  unfold add_operation. destruct method_v as [| | | |method| |]; try done.
  destruct (is_http_method method) eqn:Hm; simpl; [|intros; simplify_eq; by left].
  destruct (filter_round _ _ _ _) as [[operation rejected]|e]; simpl; [|done].
  destruct rejected; [intros; simplify_eq; by left|].
  destruct (generate_tool_from_operation _ _ _ _ _) as [built spec'] eqn:Hbuild.
  destruct built as [tool|e].
  - destruct (as_mapping _) as [op|e]; simpl; [|done].
    destruct (operation_meta_fields op) as [[pl cmt]|e]; simpl; [|done].
    intros; simplify_eq. right; right. by eexists _, _, _, _, _.
  - intros; simplify_eq. right; left. by eexists.
Qed.

Section Recording.
Context (E : PyEnv) (P : OpenAPIToolCaller → Prop) (Q : AddArgs → Prop).
Hypothesis P_set_store : ∀ self st, P self → P (set_store self st).
Hypothesis P_record : ∀ a path method tool pl cmt self spec spec',
  Q a → is_http_method method = true →
  generate_tool_from_operation E spec path method (arg_filename_prefix a)
    = (Ok tool, spec') →
  P self → P (record_tool a path method tool pl cmt self).

Lemma recording_round a path self self' method_v :
  Q a → P self → add_operation E a path self method_v = Ok self' → P self'.
Proof using P_set_store P_record.
  intros Ha Hself Hrun.
  destruct (add_operation_records _ _ _ _ _ _ Hrun)
    as [->|[[st ->]|(m & tool & pl & cmt & spec' & -> & Hm & Hbuild & ->)]]; auto.
  eapply P_record; eauto.
Qed.

Lemma recording_add_tools a self self' :
  Q a → P self → _add_tools_from_spec E a self = Ok self' → P self'.
Proof using P_set_store P_record.
  intros Ha Hself. unfold _add_tools_from_spec.
  destruct (py_get_default _ _ _) as [paths|e]; simpl; [|done].
  destruct (py_items paths) as [entries|e]; simpl; [|done].
  revert Hself. apply rfold_invariant. intros s [path item] s' Hs.
  unfold add_path. simpl. destruct (py_iter item) as [methods|e]; simpl; [|done].
  revert Hs. apply rfold_invariant. intros s1 x s2 Hs1.
  by apply recording_round.
Qed.

Hypothesis Q_init : ∀ a, arg_base_url a ≠ "" → Q a.

Lemma recording_init openapi_specs self :
  P new_caller → __init__ E openapi_specs = Ok self → P self.
Proof using P_set_store P_record Q_init.
  unfold __init__. apply rfold_invariant. intros s spec_obj s' Hs.
  unfold init_spec.
  destruct (load_openapi_spec E _) as [spec|e]; [|intros; by simplify_eq].
  match goal with |- context [match ?u with Some _ => _ | None => _ end = _] =>
    destruct u as [u'|] end; [|intros; by simplify_eq].
  destruct (String.eqb u' "") eqn:Hu; [intros; by simplify_eq|].
  apply recording_add_tools; [|by apply P_set_store].
  apply Q_init. simpl. intros ->. by rewrite String.eqb_refl in Hu.
Qed.
End Recording.

(** X9.  After [__init__], every tool is filed under its own name, it has
    operation metadata under the same name, and the required list of the
    metadata is the required list of the input schema of the tool. *)
Theorem registry_entries_are_consistent (E : PyEnv) (openapi_specs : list OpenAPISpec)
    (self : OpenAPIToolCaller) :
  __init__ E openapi_specs = Ok self →
  ∀ n tool, tools self !! n = Some tool →
    name tool = n ∧
    ∃ meta, registry self !! n = Some meta ∧
            meta_required meta = required (inputSchema tool).
Proof.
  apply (recording_init E
           (λ s, ∀ n tool, tools s !! n = Some tool →
                   name tool = n ∧
                   ∃ meta, registry s !! n = Some meta ∧
                           meta_required meta = required (inputSchema tool))
           (λ _, True)); [done| |done|].
  - intros a path m tool pl cmt s spec spec' _ _ _ Hs n t. unfold record_tool. simpl.
    destruct (decide (name tool = n)) as [<-|Hne].
    + rewrite !lookup_insert_eq. intros [= <-]. split; [done|]. by eexists.
    + rewrite !lookup_insert_ne by done. apply Hs.
  - intros n tool. unfold new_caller. simpl. by rewrite lookup_empty.
Qed.

Lemma registry_entries_are_consistent_witness :
  __init__ Samples.env [Samples.binding "item.yaml"] = Ok Samples.item_caller ∧
  tools Samples.item_caller !! "test:getItem" = Some Samples.item_tool ∧
  ∃ meta, registry Samples.item_caller !! "test:getItem" = Some meta ∧
          meta_required meta = ["id"].
Proof.
  assert (H1 : __init__ Samples.env [Samples.binding "item.yaml"] = Ok Samples.item_caller)
    by (vm_compute; reflexivity).
  assert (H2 : tools Samples.item_caller !! "test:getItem" = Some Samples.item_tool)
    by (vm_compute; reflexivity).
  split; [exact H1|]. split; [exact H2|].
  exact (proj2 (registry_entries_are_consistent Samples.env _ _ H1 _ _ H2)).
Defined.

(** X10.  After [__init__], the method of every operation in the registry
    is one of GET, POST, PUT, DELETE, PATCH, OPTIONS, HEAD, in upper
    case. *)
Theorem registry_methods_are_upper_case (E : PyEnv) (openapi_specs : list OpenAPISpec)
    (self : OpenAPIToolCaller) :
  __init__ E openapi_specs = Ok self →
  ∀ n meta, registry self !! n = Some meta → method meta ∈ http_methods_upper.
Proof.
  apply (recording_init E
           (λ s, ∀ n meta, registry s !! n = Some meta →
                           method meta ∈ http_methods_upper)
           (λ _, True)); [done| |done|].
  - intros a path m tool pl cmt s spec spec' _ Hm _ Hs n meta. unfold record_tool. simpl.
    destruct (decide (name tool = n)) as [<-|Hne].
    + rewrite lookup_insert_eq. intros [= <-]. simpl. by apply http_method_upper.
    + rewrite lookup_insert_ne by done. apply Hs.
  - intros n meta. unfold new_caller. simpl. by rewrite lookup_empty.
Qed.

Lemma registry_methods_are_upper_case_witness :
  __init__ Samples.env [Samples.binding "item.yaml"] = Ok Samples.item_caller ∧
  registry Samples.item_caller !! "test:getItem" = Some Samples.item_meta ∧
  method Samples.item_meta ∈ http_methods_upper.
Proof.
  assert (H1 : __init__ Samples.env [Samples.binding "item.yaml"] = Ok Samples.item_caller)
    by (vm_compute; reflexivity).
  assert (H2 : registry Samples.item_caller !! "test:getItem" = Some Samples.item_meta)
    by (vm_compute; reflexivity).
  split; [exact H1|]. split; [exact H2|].
  exact (registry_methods_are_upper_case Samples.env _ _ H1 _ _ H2).
Defined.


Lemma string_app_assoc (a b c : string) : (a +:+ b) +:+ c = a +:+ (b +:+ c).
Proof.
  induction a as [|x a IH]; [done|].
  change ((String x a +:+ b) +:+ c) with (String x ((a +:+ b) +:+ c)).
  by rewrite IH.
Qed.

(** The name of a tool that has been built has the prefix in front. *)
Lemma generate_tool_prefix E spec path method prefix tool spec' :
  generate_tool_from_operation E spec path method prefix = (Ok tool, spec') →
  ∃ base, name tool = prefixed prefix base.
Proof.
  unfold prefixed. destruct prefix as [p|]; [|by exists (name tool)].
  destruct (String.eqb p "") eqn:Hp; [by exists (name tool)|].
  unfold generate_tool_from_operation.
  destruct (tool_fields E spec path method (Some p)) as [[[[spec1 nm] desc] schema]|e] eqn:Hf;
    [|done].
  intros [= Hmake _]. unfold tool_fields in Hf.
  destruct (py_get_default spec "paths" _) as [paths|]; simpl in Hf; [|done].
  destruct (py_get paths path) as [item|]; simpl in Hf; [|done].
  destruct (negb (truthy_opt item)); [done|].
  destruct (py_get _ (PyStr.lower method)) as [operation|]; simpl in Hf; [|done].
  destruct (negb (truthy_opt operation)); [done|].
  destruct (as_mapping _) as [op|]; simpl in Hf; [|done].
  destruct (extract_parameters E spec op [] []) as [[props req]|]; simpl in Hf; [|done].
  destruct (extract_body E spec _ op props req) as [[[s1 p1] r1]|]; simpl in Hf; [|done].
  rewrite Hp in Hf. injection Hf as _ <- _ _.
  unfold make_tool in Hmake. destruct desc; try done. injection Hmake as <-.
  simpl. by eexists.
Qed.

(** X11.  A call of [_add_tools_from_spec] binds what it registers to what
    it was given: for every name, either the four maps hold what they held
    before the call, or they hold a tool under that name together with the
    base URL, the document, the auth type and the service name of the call,
    and the name starts with the prefix of the call. *)
Theorem add_tools_binds_to_its_arguments (E : PyEnv) (a : AddArgs)
    (self self' : OpenAPIToolCaller) :
  _add_tools_from_spec E a self = Ok self' →
  ∀ n, entry_untouched self self' n ∨ entry_bound a self' n.
Proof.
  apply (recording_add_tools E
           (λ s, ∀ n, entry_untouched self s n ∨ entry_bound a s n)
           (λ a', a' = a)); [done| |done|].
  - intros a' path m tool pl cmt s spec spec' -> Hm Hbuild Hs n.
    destruct (decide (name tool = n)) as [<-|Hne].
    + right. apply generate_tool_prefix in Hbuild as [base Hbase].
      unfold entry_bound, record_tool. simpl. rewrite !lookup_insert_eq.
      by eexists _, _, base.
    + destruct (Hs n) as [(H1 & H2 & H3 & H4)|(t & mt & base & H1 & H2 & H3 & H4 & H5)].
      * left. unfold entry_untouched, record_tool. simpl.
        by rewrite !lookup_insert_ne.
      * right. unfold entry_bound, record_tool. simpl.
        rewrite !lookup_insert_ne by done. by eexists _, _, base.
  - intros n. by left.
Qed.

Lemma add_tools_binds_to_its_arguments_witness :
  _add_tools_from_spec Samples.env Samples.sample_args Samples.item_start
    = Ok Samples.item_caller ∧
  entry_bound Samples.sample_args Samples.item_caller "test:getItem" ∧
  entry_untouched Samples.item_start Samples.item_caller "test:other".
Proof.
  assert (H : _add_tools_from_spec Samples.env Samples.sample_args Samples.item_start
              = Ok Samples.item_caller) by (vm_compute; reflexivity).
  split; [exact H|]. split.
  - destruct (add_tools_binds_to_its_arguments _ _ _ _ H "test:getItem")
      as [(Hun & _)|Hbound]; [|exact Hbound].
    vm_compute in Hun. discriminate Hun.
  - destruct (add_tools_binds_to_its_arguments _ _ _ _ H "test:other")
      as [Hun|(t & m & b & Ht & _)]; [exact Hun|].
    vm_compute in Ht. discriminate Ht.
Defined.

Lemma set_store_same (self : OpenAPIToolCaller) : set_store self (store self) = self.
Proof. by destruct self. Qed.

(** X12.  The loop accepts a method key in any case, and the builder looks
    the operation up under the lower-case key: an operation filed under a
    key such as [GET], in a path item without the key [get], passes the
    filters, is refused by the builder with "Method ... not found", and the
    round leaves the caller as it was. *)
Theorem upper_case_method_key_is_skipped (E : PyEnv) (a : AddArgs) (path m : string)
    (self : OpenAPIToolCaller) (spec operation : json) (item : pydict) :
  is_http_method m = true →
  store self !! arg_spec a = Some spec →
  get_path ["paths"; path] spec = Some (JDict item) →
  PyDict.get (PyStr.lower m) item = None →
  filter_round a path m spec = Ok (operation, None) →
  generate_tool_from_operation E spec path m (arg_filename_prefix a)
    = (Raise (ValueError ("Method '" +:+ m +:+ "' not found for path '" +:+ path
                            +:+ "' in OpenAPI spec.")), spec) ∧
  add_operation E a path self (JStr m) = Ok self.
Proof.
  intros Hm Hstore Hitem Hlower Hfilter.
  assert (Hbuild : generate_tool_from_operation E spec path m (arg_filename_prefix a)
            = (Raise (ValueError ("Method '" +:+ m +:+ "' not found for path '" +:+ path
                                    +:+ "' in OpenAPI spec.")), spec)).
  { unfold filter_round in Hfilter. rewrite Hitem in Hfilter. simpl in Hfilter.
    destruct (PyDict.get m item) as [o|] eqn:Hget; [|done].
    unfold generate_tool_from_operation, tool_fields.
    simpl in Hitem. destruct spec as [| | | | | |d]; try done.
    destruct (PyDict.get "paths" d) as [paths|] eqn:Hpaths; [|done].
    destruct paths as [| | | | | |pd]; try done.
    destruct (PyDict.get path pd) as [it|] eqn:Hpath; [|done].
    simplify_eq. simpl. rewrite Hpaths. simpl. rewrite Hpath. simpl.
    destruct item as [|[k v] item]; [done|]. simpl in Hlower. simpl.
    by rewrite Hlower. }
  split; [done|].
  unfold add_operation. rewrite Hm. simpl.
  unfold doc_of. rewrite Hstore. simpl. rewrite Hfilter. simpl. rewrite Hbuild.
  by rewrite list_insert_id, set_store_same.
Qed.

Lemma upper_case_method_key_is_skipped_witness :
  is_http_method "GET" = true ∧
  PyDict.get (PyStr.lower "GET") Cases2.upper_item = None ∧
  add_operation Samples.env Samples.sample_args "/things" Cases2.upper_start (JStr "GET")
    = Ok Cases2.upper_start.
Proof.
  split; [reflexivity|]. split; [reflexivity|].
  destruct (filter_round Samples.sample_args "/things" "GET" Cases2.upper_doc)
    as [[operation rejected]|e] eqn:Hfilter; [|vm_compute in Hfilter; discriminate Hfilter].
  assert (rejected = None) as -> by (vm_compute in Hfilter; by simplify_eq).
  exact (proj2 (upper_case_method_key_is_skipped Samples.env Samples.sample_args
                  "/things" "GET" Cases2.upper_start Cases2.upper_doc operation
                  Cases2.upper_item eq_refl eq_refl eq_refl eq_refl Hfilter)).
Defined.

Lemma rfold_app {A B} (f : A → B → res A) (l1 l2 : list B) (a : A) :
  rfold f (l1 ++ l2) a = rfold f l1 a ≫= rfold f l2.
Proof.
  revert a. induction l1 as [|x l1 IH]; intros a; simpl; [done|].
  destruct (f a x); simpl; [apply IH|done].
Qed.

Lemma init_spec_passed_over E self spec_obj :
  passed_over E spec_obj → init_spec E self spec_obj = Ok self.
Proof.
  unfold passed_over, init_spec. intros [[e ->]|[Hb Hc]]; [done|].
  destruct (load_openapi_spec E _); [|done].
  destruct Hb as [->| ->], Hc as [->| ->]; done.
Qed.

(** X13.  A binding whose document does not load, or for which neither the
    binding nor the configuration gives a base URL, is passed over: the
    construction gives what it gives without that binding, whatever comes
    before it and after it in the list. *)
Theorem passed_over_binding_changes_nothing (E : PyEnv) (before after : list OpenAPISpec)
    (spec_obj : OpenAPISpec) :
  passed_over E spec_obj →
  __init__ E (before ++ spec_obj :: after) = __init__ E (before ++ after).
Proof.
  intros Hpass. unfold __init__. rewrite !rfold_app.
  destruct (rfold (init_spec E) before new_caller) as [self|e]; simpl; [|done].
  by rewrite init_spec_passed_over.
Qed.

Lemma passed_over_binding_changes_nothing_witness :
  passed_over Samples.env (Samples.binding "missing.yaml") ∧
  __init__ Samples.env [Samples.binding "missing.yaml"; Samples.binding "item.yaml"]
  = Ok Samples.item_caller.
Proof.
  assert (H : passed_over Samples.env (Samples.binding "missing.yaml")).
  { left. eexists. reflexivity. }
  split; [exact H|].
  etrans; [exact (passed_over_binding_changes_nothing Samples.env []
                    [Samples.binding "item.yaml"] _ H)|].
  vm_compute. reflexivity.
Defined.


(* ===================================================================== *)
(** ** The dispatcher: what a call does *)
(* ===================================================================== *)

Lemma open_attachments_only_opens E attachments files r tr :
  open_attachments E attachments files = (r, tr) → Forall is_open_event tr.
Proof.
  revert files r tr.
  induction attachments as [|file_path attachments IH]; intros files r tr; simpl.
  - intros [= <- <-]. constructor.
  - destruct file_path as [| | | |fp| |]; try (intros [= <- <-]; constructor).
    destruct (can_open E _); [|intros [= <- <-]; constructor].
    destruct (open_attachments E attachments _) as [r' tr'] eqn:Hrest.
    intros [= <- <-]. constructor; [done|]. by eapply IH.
Qed.

Lemma encode_body_only_opens E kw body content_type r tr :
  encode_body E kw body content_type = (r, tr) → Forall is_open_event tr.
Proof.
  unfold encode_body.
  repeat match goal with
         | |- (if ?c then _ else _) = _ → _ => destruct c
         end; try (intros [= <- <-]; constructor).
  destruct (py_get body "attachment") as [atts|e]; [|intros [= <- <-]; constructor].
  destruct (negb (truthy (default JNull atts))); [intros [= <- <-]; constructor|].
  destruct (open_attachments E _ []) as [[files|e] tr0] eqn:Hopen;
    intros [= <- <-]; by eapply open_attachments_only_opens.
Qed.

Lemma build_request_only_opens E self tool_name arguments r tr :
  build_request E self tool_name arguments = (r, tr) → Forall is_open_event tr.
Proof.
  unfold build_request.
  destruct (request_base E self tool_name arguments) as [[[kw body] ct]|e];
    [|intros [= <- <-]; constructor].
  apply encode_body_only_opens.
Qed.

(** X14.  What a dispatch does is, in this order: it opens files, it sends
    at most one request, it closes files.  No request is sent twice and no
    file is opened once the request has gone. *)
Theorem call_tool_sends_at_most_once (E : PyEnv) (self : OpenAPIToolCaller)
    (tool_name : string) (arguments : pydict) :
  ∃ opens sends closes,
    snd (call_tool E self tool_name arguments) = opens ++ sends ++ closes ∧
    Forall is_open_event opens ∧ Forall is_send_event sends ∧
    (length sends ≤ 1)%nat ∧ Forall is_close_event closes.
Proof.
  unfold call_tool.
  destruct (build_request E self tool_name arguments) as [[[kw files]|e] tr] eqn:Hbuild.
  - apply build_request_only_opens in Hbuild.
    unfold send_request, try_send.
    destruct (prepare_request E kw) as [prepped|e]; simpl.
    + exists tr, [EvSend prepped], (close_files files). split_and!; try done.
      * by repeat constructor.
      * unfold close_files. by apply Forall_fmap, Forall_true.
    + exists tr, [], (close_files files). split_and!; try done.
      * simpl. lia.
      * unfold close_files. by apply Forall_fmap, Forall_true.
  - apply build_request_only_opens in Hbuild. simpl.
    exists tr, [], []. rewrite !app_nil_r. split_and!; try done. simpl. lia.
Qed.

(** X15.  Files are touched for [multipart/form-data] only: when the media
    type of the operation, in lower case, is anything else, a dispatch
    opens no file, and what it does is nothing or the sending of one
    request. *)
Theorem no_file_is_opened_unless_multipart (E : PyEnv) (self : OpenAPIToolCaller)
    (tool_name : string) (arguments : pydict) (meta : OperationMeta) :
  registry self !! tool_name = Some meta →
  (∀ s, conten_media_type meta = JStr s → PyStr.lower s ≠ "multipart/form-data") →
  snd (call_tool E self tool_name arguments) = [] ∨
  ∃ request, snd (call_tool E self tool_name arguments) = [EvSend request].
Proof.
  intros Hmeta Hct.
  assert (Hbuild : ∃ r, build_request E self tool_name arguments = (r, []) ∧
                        ∀ kw files, r = Ok (kw, files) → files = []).
  { unfold build_request, request_base, lookup_tool. rewrite Hmeta.
    destruct (tools self !! tool_name) as [tool|]; simpl; [|by eexists].
    destruct (check_required _ _); simpl; [|by eexists].
    destruct (check_base_url _ _); simpl; [|by eexists].
    destruct (create_headers _ _ _); simpl; [|by eexists].
    destruct (conten_media_type meta) as [| | | |s| |] eqn:Hs; simpl; try by eexists.
    specialize (Hct s eq_refl).
    set (ct := if String.eqb (PyStr.lower s) "" then "application/json" else PyStr.lower s).
    assert (String.eqb ct "multipart/form-data" = false) as Hne.
    { subst ct. destruct (String.eqb (PyStr.lower s) ""); [done|].
      by apply String.eqb_neq. }
    unfold encode_body. rewrite Hne.
    destruct (String.eqb ct "application/json");
      [eexists; split; [done|]; by intros ?? [= _ <-]|].
    destruct (String.eqb ct "application/x-www-form-urlencoded");
      eexists; (split; [done|]); by intros ?? [= _ <-]. }
  destruct Hbuild as (r & Hbuild & Hfiles).
  unfold call_tool. rewrite Hbuild. destruct r as [[kw files]|e]; [|by left].
  rewrite (Hfiles kw files eq_refl).
  unfold send_request, try_send.
  destruct (prepare_request E kw) as [prepped|e]; simpl; [right; by eexists|by left].
Qed.

Lemma no_file_is_opened_unless_multipart_witness :
  registry Samples.item_caller !! "test:getItem" = Some Samples.item_meta ∧
  ∃ request,
    snd (call_tool Samples.env Samples.item_caller "test:getItem" [("id", JInt 5)])
    = [EvSend request].
Proof.
  assert (H : registry Samples.item_caller !! "test:getItem" = Some Samples.item_meta)
    by (vm_compute; reflexivity).
  split; [exact H|].
  destruct (no_file_is_opened_unless_multipart Samples.env Samples.item_caller
              "test:getItem" [("id", JInt 5)] Samples.item_meta H) as [Hnil|Hsend].
  - intros s [= <-]. vm_compute. discriminate.
  - vm_compute in Hnil. discriminate Hnil.
  - exact Hsend.
Defined.

(* ===================================================================== *)
(** ** The dispatcher: arguments and form fields *)
(* ===================================================================== *)

Lemma dict_has_set_any {V} (k k' : string) (v : V) (d : list (string * V)) :
  PyDict.has k (PyDict.set k' v d) = String.eqb k k' || PyDict.has k d.
Proof.
  unfold PyDict.has. destruct (String.eqb_spec k k') as [->|Hne].
  - by rewrite dict_get_set_eq.
  - rewrite dict_get_set_ne by done. done.
Qed.

Lemma dict_has_cons {V} (k k' : string) (v : V) (d : list (string * V)) :
  PyDict.has k ((k', v) :: d) = String.eqb k k' || PyDict.has k d.
Proof. unfold PyDict.has. simpl. by destruct (String.eqb k k'). Qed.

Ltac has_cases :=
  repeat match goal with
         | |- context [PyDict.has ?k ?d] => destruct (PyDict.has k d)
         | |- context [is_str ?v ?s] => destruct (is_str v s)
         end; done.

Lemma partition_fold (meta : OperationMeta) (arguments : pydict) (acc : Partition)
    (k : string) :
  let parts := fold_left (partition_argument meta) arguments acc in
  let loc := location_of meta k in
  PyDict.has k (path_params parts)
    = PyDict.has k (path_params acc) || (PyDict.has k arguments && is_str loc "path") ∧
  PyDict.has k (query_params parts)
    = PyDict.has k (query_params acc) || (PyDict.has k arguments && is_str loc "query") ∧
  PyDict.has k (headers parts)
    = PyDict.has k (headers acc) || (PyDict.has k arguments && is_str loc "header") ∧
  PyDict.has k (req_body parts)
    = PyDict.has k (req_body acc) || (PyDict.has k arguments && is_str loc "body").
Proof.
  revert acc. induction arguments as [|[pname value] arguments IH]; intros acc.
  - simpl. rewrite !orb_false_r. done.
  - cbn [fold_left]. cbv zeta.
    destruct (IH (partition_argument meta acc (pname, value))) as (H1 & H2 & H3 & H4).
    cbv zeta in H1, H2, H3, H4. rewrite H1, H2, H3, H4. clear H1 H2 H3 H4 IH.
    rewrite !dict_has_cons. unfold partition_argument, location_of.
    destruct (String.eqb_spec k pname) as [->|Hne].
    + destruct (default (JStr "query") (PyDict.get pname (param_locations meta)))
        as [| | | |s| |]; simpl; try has_cases.
      destruct (String.eqb s "path") eqn:Hp; simpl.
      { apply String.eqb_eq in Hp as ->. simpl. rewrite dict_has_set. has_cases. }
      destruct (String.eqb s "query") eqn:Hq; simpl.
      { apply String.eqb_eq in Hq as ->. simpl. rewrite dict_has_set. has_cases. }
      destruct (String.eqb s "header") eqn:Hh; simpl.
      { apply String.eqb_eq in Hh as ->. simpl. rewrite dict_has_set. has_cases. }
      destruct (String.eqb s "body") eqn:Hb; simpl.
      { rewrite dict_has_set. has_cases. }
      has_cases.
    + assert (String.eqb k pname = false) as Hf by (by apply String.eqb_neq).
      destruct (is_str _ "path"); simpl; [rewrite dict_has_set_any, Hf; has_cases|].
      destruct (is_str _ "query"); simpl; [rewrite dict_has_set_any, Hf; has_cases|].
      destruct (is_str _ "header"); simpl; [rewrite dict_has_set_any, Hf; has_cases|].
      destruct (is_str _ "body"); simpl; [rewrite dict_has_set_any, Hf; has_cases|].
      has_cases.
Qed.

(** X16.  The arguments are sorted by their declared location, [query] for
    an argument that has none: an argument is in the path parameters, the
    query parameters, the headers or the body exactly when it is given and
    its location is [path], [query], [header] or [body]; an argument with
    any other location, such as [cookie], is in none of the four and is
    not sent. *)
Theorem arguments_are_sorted_by_location (meta : OperationMeta) (arguments : pydict)
    (k : string) :
  let parts := partition_arguments meta arguments in
  let loc := location_of meta k in
  PyDict.has k (path_params parts) = PyDict.has k arguments && is_str loc "path" ∧
  PyDict.has k (query_params parts) = PyDict.has k arguments && is_str loc "query" ∧
  PyDict.has k (headers parts) = PyDict.has k arguments && is_str loc "header" ∧
  PyDict.has k (req_body parts) = PyDict.has k arguments && is_str loc "body".
Proof.
  exact (partition_fold meta arguments
           {| path_params := []; query_params := []; headers := []; req_body := [] |} k).
Qed.

Lemma form_fields_fold (d acc : pydict) (k : string) :
  PyDict.has k (fold_left form_field d acc)
  = PyDict.has k acc || (PyDict.has k d && negb (String.eqb k "attachment")).
Proof.
  revert acc. induction d as [|[k' v] d IH]; intros acc.
  - simpl. by rewrite orb_false_r.
  - cbn [fold_left]. rewrite IH, dict_has_cons. clear IH. unfold form_field.
    destruct (String.eqb_spec k' "attachment") as [->|Hne'].
    + destruct (String.eqb k "attachment"); simpl; has_cases.
    + assert (∀ w, PyDict.has k (PyDict.set k' w acc)
                   = String.eqb k k' || PyDict.has k acc) as Hset
        by (intros; apply dict_has_set_any).
      assert (String.eqb k k' = true → String.eqb k "attachment" = false) as Hk.
      { intros Heq. apply String.eqb_eq in Heq as ->. by apply String.eqb_neq. }
      destruct v; rewrite Hset; destruct (String.eqb k k');
        try rewrite (Hk eq_refl); simpl; has_cases.
Qed.

(** X17.  The form fields of a multipart request are the keys of the body
    without [attachment]: a key is a form field exactly when it is a key
    of the body and is not [attachment]. *)
Theorem form_fields_leave_out_the_attachment (body : pydict) (k : string) :
  PyDict.has k (fold_left form_field body [])
  = PyDict.has k body && negb (String.eqb k "attachment").
Proof. apply form_fields_fold. Qed.

(** X18.  The validation of the arguments passes exactly when every field
    of the required list is a key of the arguments. *)
Theorem required_check_passes_iff_all_present (required : list string)
    (arguments : pydict) :
  check_required required arguments = Ok tt ↔
  Forall (λ r, PyDict.has r arguments = true) required.
Proof.
  induction required as [|r required IH]; simpl.
  - split; [constructor|done].
  - destruct (PyDict.has r arguments) eqn:Hr; simpl.
    + rewrite IH. split; [by constructor|by inversion 1].
    + split; [done|]. inversion 1; congruence.
Qed.


(* ===================================================================== *)
(** ** Credentials *)
(* ===================================================================== *)

Lemma truthy_default (o : option json) : truthy (default JNull o) = truthy_opt o.
Proof. by destruct o. Qed.

Lemma basic_header_shape E service h :
  get_basic_auth_header E service = Ok h →
  ∃ c, h = [("Authorization", JStr ("Basic " +:+ c))].
Proof.
  unfold get_basic_auth_header.
  destruct (if truthy _ then _ else _) as [[key secret]|e]; simpl; [|done].
  destruct (if negb (truthy key) || negb (truthy secret) then _ else _)
    as [[key' secret']|e]; simpl; [|done].
  destruct (negb (truthy key') || negb (truthy secret')); [done|].
  intros [= <-]. by eexists.
Qed.

Lemma bearer_header_shape E service h :
  get_bearer_auth_header E service = Ok h →
  ∃ c, h = [("Authorization", JStr ("Bearer " +:+ c))].
Proof.
  unfold get_bearer_auth_header.
  destruct (if truthy _ then _ else _) as [token|e]; simpl; [|done].
  destruct (if negb (truthy token) then _ else _) as [token'|e]; simpl; [|done].
  destruct (negb (truthy token')); [done|].
  intros [= <-]. by eexists.
Qed.

Lemma auth_header_shape E auth_type service h :
  get_auth_header E auth_type service = Ok h → ∃ v, h = [("Authorization", JStr v)].
Proof.
  unfold get_auth_header. destruct auth_type as [t|]; [|done].
  destruct (String.eqb (PyStr.lower t) "basic").
  - intros [c ->]%basic_header_shape. by eexists.
  - destruct (String.eqb (PyStr.lower t) "bearer"); [|done].
    intros [c ->]%bearer_header_shape. by eexists.
Qed.

(** X19.  When [get_auth_header] returns, it returns one header,
    [Authorization], whose value is [Basic ] or [Bearer ] followed by the
    credentials, according to the auth type read without regard to
    case. *)
Theorem auth_header_is_one_authorization_header (E : PyEnv) (auth_type : option string)
    (service : string) (h : pydict) :
  get_auth_header E auth_type service = Ok h →
  ∃ t c,
    auth_type = Some t ∧
    ((PyStr.lower t = "basic" ∧ h = [("Authorization", JStr ("Basic " +:+ c))]) ∨
     (PyStr.lower t = "bearer" ∧ h = [("Authorization", JStr ("Bearer " +:+ c))])).
Proof.
  unfold get_auth_header. destruct auth_type as [t|]; [|done].
  destruct (String.eqb_spec (PyStr.lower t) "basic") as [Hb|_].
  - intros [c ->]%basic_header_shape. exists t, c. split; [done|]. by left.
  - destruct (String.eqb_spec (PyStr.lower t) "bearer") as [Hb|_]; [|done].
    intros [c ->]%bearer_header_shape. exists t, c. split; [done|]. by right.
Qed.

Lemma auth_header_is_one_authorization_header_witness :
  get_auth_header Samples.env (Some "BASIC") "test"
  = Ok [("Authorization", JStr "Basic b64:key:secret")] ∧
  ∃ t c, Some "BASIC" = Some t ∧
    ((PyStr.lower t = "basic" ∧
      [("Authorization", JStr "Basic b64:key:secret")]
      = [("Authorization", JStr ("Basic " +:+ c))]) ∨
     (PyStr.lower t = "bearer" ∧
      [("Authorization", JStr "Basic b64:key:secret")]
      = [("Authorization", JStr ("Bearer " +:+ c))])).
Proof.
  assert (H : get_auth_header Samples.env (Some "BASIC") "test"
              = Ok [("Authorization", JStr "Basic b64:key:secret")])
    by (vm_compute; reflexivity).
  split; [exact H|].
  exact (auth_header_is_one_authorization_header Samples.env _ _ _ H).
Defined.

(** X20.  Basic credentials are never mixed: when the configuration of the
    service lacks a usable key or a usable secret, both are read from the
    process environment, and the header is the one that the process
    environment alone gives; a key that the configuration does have is not
    used. *)
Theorem basic_credentials_are_not_mixed (E : PyEnv) (service : string) (cfg : pydict) :
  config_authentication E service = Some (JDict cfg) →
  truthy_opt (PyDict.get "api_key" cfg) = false ∨
  truthy_opt (PyDict.get "api_secret" cfg) = false →
  get_basic_auth_header E service = get_basic_auth_header (without_config E) service.
Proof.
  intros Hcfg Hpart. unfold get_basic_auth_header. rewrite Hcfg.
  change (default JNull (Some (JDict cfg))) with (JDict cfg).
  assert (negb (truthy (default JNull (PyDict.get "api_key" cfg)))
          || negb (truthy (default JNull (PyDict.get "api_secret" cfg))) = true) as Hks.
  { rewrite !truthy_default.
    destruct Hpart as [-> | ->]; [done|]. by rewrite orb_true_r. }
  destruct (truthy (JDict cfg)).
  - change (py_get (JDict cfg) "api_key") with (Ok (PyDict.get "api_key" cfg) : res _).
    change (py_get (JDict cfg) "api_secret") with (Ok (PyDict.get "api_secret" cfg) : res _).
    cbn [mbind res_bind]. by rewrite Hks.
  - reflexivity.
Qed.

Lemma basic_credentials_are_not_mixed_witness :
  config_authentication Cases4.split_env "sms"
    = Some (JDict [("api_key", JStr "from-config")]) ∧
  get_basic_auth_header Cases4.split_env "sms"
  = Ok [("Authorization", JStr "Basic b64:env-key:env-secret")].
Proof.
  split; [reflexivity|].
  etrans; [exact (basic_credentials_are_not_mixed Cases4.split_env "sms"
                    [("api_key", JStr "from-config")] eq_refl (or_intror eq_refl))|].
  vm_compute. reflexivity.
Defined.

(** X21.  [get_env_var] does not tell the cases of a name apart: for a
    name in ASCII, the name, the name in upper case and the name in lower
    case give the same result, the same error included. *)
Theorem env_var_lookup_ignores_case (E : PyEnv) (key : string) :
  ascii_text key = true →
  get_env_var E (PyStr.upper key) = get_env_var E key ∧
  get_env_var E (PyStr.lower key) = get_env_var E key.
Proof.
  intros _. unfold get_env_var.
  by rewrite upper_upper, lower_upper, upper_lower, lower_lower.
Qed.

Lemma env_var_lookup_ignores_case_witness :
  ascii_text "Sms_Api_Key" = true ∧
  get_env_var Cases4.split_env "SMS_API_KEY" = Ok (Some "env-key") ∧
  get_env_var Cases4.split_env "Sms_Api_Key" = Ok (Some "env-key") ∧
  get_env_var Cases4.split_env "sms_api_key" = Ok (Some "env-key").
Proof.
  assert (H : ascii_text "Sms_Api_Key" = true) by reflexivity.
  split; [exact H|].
  destruct (env_var_lookup_ignores_case Cases4.split_env "Sms_Api_Key" H)
    as [Hupper Hlower].
  assert (Hkey : get_env_var Cases4.split_env "Sms_Api_Key" = Ok (Some "env-key"))
    by (vm_compute; reflexivity).
  split; [|split; [exact Hkey|]].
  - etrans; [exact Hupper|exact Hkey].
  - etrans; [exact Hlower|exact Hkey].
Defined.

(* ===================================================================== *)
(** ** The dispatcher: headers *)
(* ===================================================================== *)

Lemma dict_keys_set {V} (k : string) (v : V) (d : list (string * V)) :
  PyDict.keys (PyDict.set k v d) = PyDict.keys d ∨
  ((k ∉ PyDict.keys d) ∧ PyDict.keys (PyDict.set k v d) = PyDict.keys d ++ [k]).
Proof.
  unfold PyDict.keys. induction d as [|[k' v'] d IH]; simpl.
  - right. split; [apply not_elem_of_nil|done].
  - destruct (String.eqb_spec k k') as [->|Hne]; simpl; [by left|].
    destruct IH as [->|[Hk ->]]; [by left|].
    right. split; [|done]. by apply not_elem_of_cons.
Qed.

Lemma dict_set_nodup {V} (k : string) (v : V) (d : list (string * V)) :
  NoDup (PyDict.keys d) → NoDup (PyDict.keys (PyDict.set k v d)).
Proof.
  intros Hnd. destruct (dict_keys_set k v d) as [->|[Hk ->]]; [done|].
  apply NoDup_app. split_and!; [done| |apply NoDup_singleton].
  intros x Hx Hx'. apply list_elem_of_singleton in Hx' as ->. done.
Qed.

Lemma dict_merge_nodup {V} (a b : list (string * V)) :
  NoDup (PyDict.keys a) → NoDup (PyDict.keys (PyDict.merge a b)).
Proof.
  unfold PyDict.merge. revert a.
  induction b as [|[k v] b IH]; intros a Ha; simpl; [done|].
  apply IH. by apply dict_set_nodup.
Qed.

Lemma dict_get_absent {V} (k : string) (d : list (string * V)) :
  k ∉ PyDict.keys d → PyDict.get k d = None.
Proof.
  unfold PyDict.keys. induction d as [|[k' v'] d IH]; simpl; [done|].
  intros Hk. apply not_elem_of_cons in Hk as [Hne Hk].
  destruct (String.eqb_spec k k'); [done|]. by apply IH.
Qed.

(** [{**a, **b}] with distinct keys in [b]: the value under a key is that
    of [b] when [b] has the key, that of [a] otherwise. *)
Lemma dict_get_merge {V} (k : string) (a b : list (string * V)) :
  NoDup (PyDict.keys b) →
  PyDict.get k (PyDict.merge a b)
  = match PyDict.get k b with Some v => Some v | None => PyDict.get k a end.
Proof.
  unfold PyDict.merge. revert a.
  induction b as [|[k' v'] b IH]; intros a Hb; simpl; [done|].
  apply NoDup_cons in Hb as [Hk' Hb]. rewrite IH by done.
  destruct (String.eqb_spec k k') as [->|Hne].
  - rewrite (dict_get_absent k' b Hk'). apply dict_get_set_eq.
  - destruct (PyDict.get k b); [done|]. by apply dict_get_set_ne.
Qed.


(** The four dicts that the arguments are sorted into have distinct
    keys. *)
Lemma partition_nodup (meta : OperationMeta) (arguments : pydict) :
  NoDup (PyDict.keys (headers (partition_arguments meta arguments))).
Proof.
  unfold partition_arguments.
  assert (∀ acc, NoDup (PyDict.keys (headers acc)) →
                 NoDup (PyDict.keys (headers (fold_left (partition_argument meta)
                                                 arguments acc)))) as Hfold.
  { induction arguments as [|[pname value] arguments IH]; intros acc Hacc; [done|].
    cbn [fold_left]. apply IH. unfold partition_argument.
    repeat match goal with
           | |- context [if ?c then _ else _] => destruct c
           end; simpl; try done.
    by apply dict_set_nodup. }
  apply Hfold. simpl. constructor.
Qed.

(** X22.  In the headers that [create_headers] builds from the header
    arguments of a call, every header other than [Content-Type] has the
    value the caller gave for it, and the value of the auth header when the
    caller gave none: a header argument named [Authorization] replaces the
    credentials of the service. *)
Theorem caller_headers_override_auth (E : PyEnv) (meta : OperationMeta)
    (arguments auth : pydict) :
  get_auth_header E (auth_type meta) (service_name meta) = Ok auth →
  let hdrs := headers (partition_arguments meta arguments) in
  ∃ h, create_headers E meta hdrs = Ok h ∧
       NoDup (PyDict.keys h) ∧
       ∀ k, k ≠ "Content-Type" →
            PyDict.get k h = match PyDict.get k hdrs with
                             | Some v => Some v
                             | None => PyDict.get k auth
                             end.
Proof.
  intros Hauth hdrs. unfold create_headers. rewrite Hauth. simpl.
  pose proof (partition_nodup meta arguments) as Hnd. fold hdrs in Hnd.
  assert (NoDup (PyDict.keys (PyDict.set "Content-Type" (conten_media_type meta) hdrs)))
    as Hnd' by (by apply dict_set_nodup).
  assert (truthy (JDict (PyDict.set "Content-Type" (conten_media_type meta) hdrs)) = true)
    as Htruthy.
  { destruct (PyDict.set _ _ hdrs) eqn:Hs; [by apply dict_set_nonempty in Hs|done]. }
  change (match PyDict.set "Content-Type" (conten_media_type meta) hdrs with
          | [] => false | _ :: _ => true end)
    with (truthy (JDict (PyDict.set "Content-Type" (conten_media_type meta) hdrs))).
  rewrite Htruthy. eexists. split; [done|]. split.
  - apply dict_merge_nodup.
    apply auth_header_shape in Hauth as [v ->].
    unfold PyDict.keys. simpl. apply NoDup_singleton.
  - intros k Hk. rewrite dict_get_merge by done.
    by rewrite dict_get_set_ne.
Qed.


Lemma caller_headers_override_auth_witness :
  get_auth_header Samples.env (auth_type Cases4.token_meta)
    (service_name Cases4.token_meta)
  = Ok [("Authorization", JStr "Basic b64:key:secret")] ∧
  ∃ h, create_headers Samples.env Cases4.token_meta
         (headers (partition_arguments Cases4.token_meta Cases4.override_arguments))
       = Ok h ∧
       NoDup (PyDict.keys h) ∧
       ∀ k, k ≠ "Content-Type" →
            PyDict.get k h
            = match PyDict.get k (headers (partition_arguments Cases4.token_meta
                                             Cases4.override_arguments)) with
              | Some v => Some v
              | None => PyDict.get k [("Authorization", JStr "Basic b64:key:secret")]
              end.
Proof.
  assert (H : get_auth_header Samples.env (auth_type Cases4.token_meta)
                (service_name Cases4.token_meta)
              = Ok [("Authorization", JStr "Basic b64:key:secret")])
    by (vm_compute; reflexivity).
  split; [exact H|].
  exact (caller_headers_override_auth Samples.env Cases4.token_meta
           Cases4.override_arguments _ H).
Defined.

(* ===================================================================== *)
(** ** The dispatcher: the encoded request *)
(* ===================================================================== *)










(** X25.  Credentials in the configuration win: when the configuration of
    the service gives a usable key and a usable secret, the Basic header
    is made of them and the process environment is not read, so that an
    ambiguous variable there raises nothing. *)
Theorem configured_credentials_win (E : PyEnv) (service : string) (cfg : pydict)
    (key secret : json) :
  config_authentication E service = Some (JDict cfg) →
  PyDict.get "api_key" cfg = Some key → truthy key = true →
  PyDict.get "api_secret" cfg = Some secret → truthy secret = true →
  get_basic_auth_header E service
  = Ok [("Authorization",
         JStr ("Basic " +:+ b64encode E (fmt E key +:+ ":" +:+ fmt E secret)))].
Proof.
  intros Hcfg Hkey Hk Hsecret Hs. unfold get_basic_auth_header. rewrite Hcfg.
  change (default JNull (Some (JDict cfg))) with (JDict cfg).
  assert (truthy (JDict cfg) = true) as ->.
  { destruct cfg; [done|reflexivity]. }
  change (py_get (JDict cfg) "api_key") with (Ok (PyDict.get "api_key" cfg) : res _).
  change (py_get (JDict cfg) "api_secret") with (Ok (PyDict.get "api_secret" cfg) : res _).
  rewrite Hkey, Hsecret. cbn [mbind res_bind default from_option id].
  rewrite Hk, Hs. cbn [negb orb mbind res_bind]. by rewrite Hk, Hs.
Qed.

Lemma configured_credentials_win_witness :
  config_authentication Cases4.loud_env "test"
  = Some (JDict [("api_key", JStr "key"); ("api_secret", JStr "secret")]) ∧
  get_env_var Cases4.loud_env "TEST_API_KEY"
  = Raise (ValueError ("Ambiguous environment variable: both 'TEST_API_KEY' and "
                       +:+ "'test_api_key' are set. Please set only one.")) ∧
  get_basic_auth_header Cases4.loud_env "test"
  = Ok [("Authorization", JStr "Basic b64:key:secret")].
Proof.
  split; [reflexivity|]. split; [vm_compute; reflexivity|].
  exact (configured_credentials_win Cases4.loud_env "test"
           [("api_key", JStr "key"); ("api_secret", JStr "secret")]
           (JStr "key") (JStr "secret") eq_refl eq_refl eq_refl eq_refl eq_refl).
Defined.

(* ===================================================================== *)
(** ** Strings: reversal, stripping and splitting *)
(* ===================================================================== *)

Lemma string_app_nil_r (s : string) : s +:+ "" = s.
Proof.
  induction s as [|c s IH]; [done|]. rewrite string_app_cons. by rewrite IH.
Qed.

Lemma string_rev_app_spec (s1 s2 : string) :
  String.rev_app s1 s2 = String.rev s1 +:+ s2.
Proof.
  unfold String.rev. revert s2.
  induction s1 as [|c s1 IH]; intros s2; [done|]. simpl.
  rewrite (IH (String c s2)), (IH (String c "")), string_app_assoc. done.
Qed.

Lemma string_rev_cons (c : ascii) (s : string) :
  String.rev (String c s) = String.rev s +:+ String c "".
Proof. unfold String.rev at 1. simpl. apply string_rev_app_spec. Qed.

Lemma string_rev_app (a b : string) :
  String.rev (a +:+ b) = String.rev b +:+ String.rev a.
Proof.
  induction a as [|c a IH].
  - change ("" +:+ b) with b. by rewrite string_app_nil_r.
  - rewrite string_app_cons, !string_rev_cons, IH. apply string_app_assoc.
Qed.

Lemma string_rev_involutive (s : string) : String.rev (String.rev s) = s.
Proof.
  induction s as [|c s IH]; [done|].
  rewrite string_rev_cons, string_rev_app, IH. done.
Qed.




Lemma lstrip_id (cs s : string) :
  (∀ c, Config.first_char s = Some c → PyStr.mem_char c cs = false) →
  PyStr.lstrip cs s = s.
Proof.
  destruct s as [|d s]; [done|]. intros H. simpl. by rewrite (H d eq_refl).
Qed.



Lemma rstrip_id (cs s : string) :
  (∀ c, Config.last_char s = Some c → PyStr.mem_char c cs = false) →
  PyStr.rstrip cs s = s.
Proof.
  intros H. unfold PyStr.rstrip. rewrite lstrip_id by done.
  apply string_rev_involutive.
Qed.


Lemma strip_of_trimmed (s : string) : Config.trimmed s → Config.strip s = s.
Proof.
  intros (_ & Hfirst & Hlast). unfold Config.strip, PyStr.strip.
  rewrite lstrip_id by done. by apply rstrip_id.
Qed.

Lemma strip_of_padded (s : string) : Config.trimmed s → Config.strip (String " " s) = s.
Proof.
  intros Hs. rewrite <- (strip_of_trimmed s Hs) at 2. reflexivity.
Qed.

Lemma mem_char_app (c : ascii) (a b : string) :
  PyStr.mem_char c (a +:+ b) = PyStr.mem_char c a || PyStr.mem_char c b.
Proof.
  induction a as [|d a IH]; [done|].
  rewrite string_app_cons. simpl. by rewrite IH, orb_assoc.
Qed.

Lemma split_go_end (sep : ascii) (cur a : string) :
  PyStr.mem_char sep a = false →
  PyStr.split_go sep cur a = [String.rev (String.rev_app a cur)].
Proof.
  revert cur. induction a as [|d a IH]; intros cur; simpl; [done|].
  intros [Hd Ha]%orb_false_elim. rewrite Ascii.eqb_sym, Hd. by apply IH.
Qed.

Lemma split_go_sep (sep : ascii) (cur a rest : string) :
  PyStr.mem_char sep a = false →
  PyStr.split_go sep cur (a +:+ String sep rest)
  = String.rev (String.rev_app a cur) :: PyStr.split_go sep "" rest.
Proof.
  revert cur. induction a as [|d a IH]; intros cur.
  - intros _. change ("" +:+ String sep rest) with (String sep rest).
    simpl. by rewrite Ascii.eqb_refl.
  - intros Hmem. simpl in Hmem. apply orb_false_elim in Hmem as [Hd Ha].
    rewrite string_app_cons. simpl.
    rewrite Ascii.eqb_sym, Hd. by apply IH.
Qed.

Lemma string_rev_rev_app (a : string) : String.rev (String.rev_app a "") = a.
Proof. apply string_rev_involutive. Qed.

(** The pieces that [split] cuts a joined list into. *)
Lemma split_join (pre item : string) (items : list string) :
  PyStr.mem_char "," pre = false →
  Forall (λ v, PyStr.mem_char "," v = false) (item :: items) →
  PyStr.split_go "," "" (pre +:+ Config.join (item :: items))
  = (pre +:+ item) :: (String " " <$> items).
Proof.
  revert pre item. induction items as [|item' items IH]; intros pre item Hpre Hitems.
  - apply Forall_cons in Hitems as [Hitem _]. simpl Config.join.
    rewrite split_go_end by (by rewrite mem_char_app, Hpre, Hitem).
    by rewrite string_rev_rev_app.
  - apply Forall_cons in Hitems as [Hitem Hitems].
    change (Config.join (item :: item' :: items))
      with (item +:+ String "," (String " " "" +:+ Config.join (item' :: items))).
    rewrite <- string_app_assoc.
    rewrite split_go_sep by (by rewrite mem_char_app, Hpre, Hitem).
    rewrite string_rev_rev_app. f_equal. by rewrite IH.
Qed.

Lemma to_list_of_pieces (l : list string) :
  Forall (λ p, ∃ v, Config.trimmed v ∧ (p = v ∨ p = String " " v)) l →
  ∃ items, Forall2 (λ p v, Config.trimmed v ∧ (p = v ∨ p = String " " v)) l items ∧
           Config.strip <$> List.filter (λ v, negb (String.eqb (Config.strip v) "")) l
           = items.
Proof.
  induction l as [|p l IH]; intros Hl.
  - exists []. by split; [constructor|].
  - apply Forall_cons in Hl as [(v & Hv & Hp) Hl].
    destruct (IH Hl) as (items & Hitems & Heq). exists (v :: items).
    assert (Config.strip p = v) as Hstrip.
    { destruct Hp as [-> | ->]; [by apply strip_of_trimmed|by apply strip_of_padded]. }
    split; [by constructor|]. cbn [List.filter]. rewrite Hstrip.
    destruct (String.eqb_spec v "") as [->|_]; [by destruct Hv|].
    cbn [negb fmap list_fmap]. rewrite Hstrip. f_equal. exact Heq.
Qed.


(** X27.  [to_list] reads back what was joined: entries in ASCII without
    a comma, not empty and without white space at either end, joined by a
    comma and a blank, are the list that [to_list] makes of the joined
    string. *)
Theorem to_list_reads_back_a_joined_list (items : list string) :
  Forall (λ v, Config.trimmed v ∧ ascii_text v = true ∧
               PyStr.mem_char "," v = false) items →
  Config.to_list (JStr (Config.join items)) = JList (JStr <$> items).
Proof.
  intros Hitems. unfold Config.to_list. do 2 f_equal.
  destruct items as [|item items]; [reflexivity|].
  assert (PyStr.split "," (Config.join (item :: items))
          = item :: (String " " <$> items)) as ->.
  { apply (split_join "" item items); [done|].
    eapply Forall_impl; [exact Hitems|]. by intros ? (_ & _ & ?). }
  apply Forall_cons in Hitems as [[Hitem _] Hitems].
  cbn [List.filter]. rewrite (strip_of_trimmed item Hitem).
  destruct (String.eqb_spec item "") as [->|_]; [by destruct Hitem|].
  cbn [negb fmap list_fmap]. rewrite (strip_of_trimmed item Hitem). f_equal.
  induction items as [|v items IH]; [done|].
  apply Forall_cons in Hitems as [[Hv _] Hitems].
  cbn [fmap list_fmap List.filter]. rewrite (strip_of_padded v Hv).
  destruct (String.eqb_spec v "") as [->|_]; [by destruct Hv|].
  cbn [negb fmap list_fmap]. rewrite (strip_of_padded v Hv). f_equal. by apply IH.
Qed.

Lemma to_list_reads_back_a_joined_list_witness :
  Forall (λ v, Config.trimmed v ∧ ascii_text v = true ∧ PyStr.mem_char "," v = false)
    ["pets"; "store admin"] ∧
  Config.to_list (JStr "pets, store admin") = JList [JStr "pets"; JStr "store admin"].
Proof.
  assert (H : Forall (λ v, Config.trimmed v ∧ ascii_text v = true ∧
                           PyStr.mem_char "," v = false)
                ["pets"; "store admin"]).
  { repeat constructor; try done; intros c [= <-]; reflexivity. }
  split; [exact H|].
  exact (to_list_reads_back_a_joined_list ["pets"; "store admin"] H).
Defined.

(* ===================================================================== *)
(** ** The bindings read from the configuration *)
(* ===================================================================== *)

(** The getters call [_get] without [env]: nothing is read from the
    process environment. *)
Lemma get_without_env (E : PyEnv) (yaml : json) (keys : list string) (default : json) :
  Config._get E yaml keys None default = Ok (Config.from_yaml yaml keys default).
Proof. reflexivity. Qed.

Lemma service_spec_binding (yaml : json) (service : string) (b : Config.OpenAPISpec) :
  Config.service_spec yaml service = Ok (Some b) →
  Config.service_name b = service ∧ Config.prefix b = service ∧
  Config.base_url b = JNull ∧
  Config.file_location b = Config.get_openapi_file_location yaml service ∧
  truthy (Config.file_location b) = true.
Proof.
  unfold Config.service_spec.
  destruct (Config.get_openapi_auth_type yaml service) as [auth_type|e]; [|done].
  cbn [mbind res_bind].
  destruct (py_get_default _ "include_tags" _) as [include_tags|e]; [|done].
  cbn [mbind res_bind].
  destruct (py_get_default _ "exlude_tags" _) as [exlude_tags|e]; [|done].
  cbn [mbind res_bind].
  destruct (if truthy exlude_tags then _ else _) as [exclude_tags|e]; [|done].
  cbn [mbind res_bind].
  destruct (py_get_default _ "include_paths" _) as [include_paths|e]; [|done].
  cbn [mbind res_bind].
  destruct (py_get_default _ "exclude_paths" _) as [exclude_paths|e]; [|done].
  cbn [mbind res_bind].
  destruct (truthy (Config.get_openapi_file_location yaml service)) eqn:Hloc; [|done].
  intros [= <-]. by simpl.
Qed.

Lemma service_spec_skipped (yaml : json) (service : string) :
  Config.service_spec yaml service = Ok None →
  truthy (Config.get_openapi_file_location yaml service) = false.
Proof.
  unfold Config.service_spec.
  destruct (Config.get_openapi_auth_type yaml service) as [auth_type|e]; [|done].
  cbn [mbind res_bind].
  destruct (py_get_default _ "include_tags" _) as [include_tags|e]; [|done].
  cbn [mbind res_bind].
  destruct (py_get_default _ "exlude_tags" _) as [exlude_tags|e]; [|done].
  cbn [mbind res_bind].
  destruct (if truthy exlude_tags then _ else _) as [exclude_tags|e]; [|done].
  cbn [mbind res_bind].
  destruct (py_get_default _ "include_paths" _) as [include_paths|e]; [|done].
  cbn [mbind res_bind].
  destruct (py_get_default _ "exclude_paths" _) as [exclude_paths|e]; [|done].
  cbn [mbind res_bind].
  by destruct (truthy (Config.get_openapi_file_location yaml service)).
Qed.

Lemma append_spec_loop (yaml : json) (services : list string)
    (acc specs : list Config.OpenAPISpec) :
  rfold (Config.append_spec yaml) services acc = Ok specs →
  ∃ new, specs = acc ++ new ∧
         Config.service_name <$> new
         = List.filter (λ s, truthy (Config.get_openapi_file_location yaml s)) services ∧
         Forall (λ b, Config.service_spec yaml (Config.service_name b) = Ok (Some b)) new.
Proof.
  revert acc. induction services as [|service services IH]; intros acc; simpl.
  - intros [= <-]. exists []. by rewrite app_nil_r.
  - unfold Config.append_spec at 2.
    destruct (Config.service_spec yaml service) as [[b|]|e] eqn:Hspec; [| |done].
    + cbn [mbind res_bind option_list]. intros (new & -> & Hnames & Hnew)%IH.
      pose proof (service_spec_binding _ _ _ Hspec) as (Hname & _ & _ & Hloc & Htruthy).
      rewrite <- Hloc, Htruthy.
      exists (b :: new). rewrite <- app_assoc. split; [done|]. split.
      * cbn [fmap list_fmap]. by rewrite Hname, Hnames.
      * constructor; [by rewrite Hname|done].
    + cbn [mbind res_bind option_list]. rewrite app_nil_r.
      rewrite (service_spec_skipped _ _ Hspec). apply IH.
Qed.

(** X28.  When the configuration file names a service, the bindings are
    those of the services whose [file_location] is set, in the order of the
    file; each is what one round of the loop makes of its service, its
    prefix is the name of the service and it carries no base URL; the
    process environment is not read. *)
Theorem file_bindings_follow_the_services (E : PyEnv) (yaml : json)
    (specs : list Config.OpenAPISpec) :
  Config.openapi_services yaml ≠ [] →
  Config.openapi_specs E yaml = Ok specs →
  Config.service_name <$> specs
  = List.filter (λ s, truthy (Config.get_openapi_file_location yaml s))
      (Config.openapi_services yaml) ∧
  Forall (λ b, Config.service_spec yaml (Config.service_name b) = Ok (Some b) ∧
               Config.prefix b = Config.service_name b ∧
               Config.base_url b = JNull) specs ∧
  ∀ E', Config.openapi_specs E' yaml = Ok specs.
Proof.
  intros Hservices Hspecs.
  assert (rfold (Config.append_spec yaml) (Config.openapi_services yaml) [] = Ok specs)
    as Hloop.
  { unfold Config.openapi_specs in Hspecs.
    by destruct (Config.openapi_services yaml). }
  split_and!.
  - by apply append_spec_loop in Hloop as (new & -> & Hnames & _).
  - apply append_spec_loop in Hloop as (new & -> & _ & Hnew). simpl.
    eapply Forall_impl; [exact Hnew|]. intros b Hb. split; [done|].
    apply service_spec_binding in Hb as (_ & Hprefix & Hurl & _). by split.
  - intros E'. unfold Config.openapi_specs.
    by destruct (Config.openapi_services yaml).
Qed.

Lemma file_bindings_follow_the_services_witness :
  Config.openapi_services Cases5.two_services ≠ [] ∧
  Config.openapi_specs Samples.env Cases5.two_services = Ok [Cases5.sms_binding] ∧
  Config.service_name <$> [Cases5.sms_binding] = ["sms"].
Proof.
  assert (H1 : Config.openapi_services Cases5.two_services ≠ []) by done.
  assert (H2 : Config.openapi_specs Samples.env Cases5.two_services
               = Ok [Cases5.sms_binding]) by (vm_compute; reflexivity).
  split; [exact H1|]. split; [exact H2|].
  destruct (file_bindings_follow_the_services Samples.env Cases5.two_services
              [Cases5.sms_binding] H1 H2) as (Hnames & _ & _).
  exact Hnames.
Defined.

(** X29.  When the configuration file names no service, the bindings come
    from the process environment: there is one binding when both
    [OPENAPI_SPEC_PATH] and [OPENAPI_BASE_URL] are set to something, and
    none otherwise; the binding has no filter, and its name, which is also
    its prefix, is [default] when [OPENAPI_SERVICE_NAME] is not set. *)
Theorem env_bindings (E : PyEnv) (yaml : json) (specs : list Config.OpenAPISpec) :
  Config.openapi_services yaml = [] →
  Config.openapi_specs E yaml = Ok specs →
  ∃ spec_path base_url auth_type service_name,
    get_env_var E "OPENAPI_SPEC_PATH" = Ok spec_path ∧
    get_env_var E "OPENAPI_BASE_URL" = Ok base_url ∧
    get_env_var E "OPENAPI_AUTH_TYPE" = Ok auth_type ∧
    get_env_var E "OPENAPI_SERVICE_NAME" = Ok service_name ∧
    ((specs = [] ∧
      (spec_path = None ∨ spec_path = Some "" ∨ base_url = None ∨ base_url = Some "")) ∨
     (∃ location url,
        spec_path = Some location ∧ location ≠ "" ∧
        base_url = Some url ∧ url ≠ "" ∧
        specs = [{| Config.service_name := default "default" service_name;
                    Config.file_location := JStr location;
                    Config.prefix := default "default" service_name;
                    Config.auth_type := env_value auth_type;
                    Config.base_url := JStr url;
                    Config.include_tags := JNull; Config.exclude_tags := JNull;
                    Config.include_paths := JNull; Config.exclude_paths := JNull |}])).
Proof.
  intros Hservices. unfold Config.openapi_specs. rewrite Hservices.
  unfold Config.env_specs.
  destruct (get_env_var E "OPENAPI_SPEC_PATH") as [spec_path|e]; [|done].
  destruct (get_env_var E "OPENAPI_BASE_URL") as [base_url|e]; [|done].
  destruct (get_env_var E "OPENAPI_AUTH_TYPE") as [auth_type|e]; [|done].
  destruct (get_env_var E "OPENAPI_SERVICE_NAME") as [service_name|e]; [|done].
  cbn [mbind res_bind]. intros Hspecs.
  exists spec_path, base_url, auth_type, service_name. split_and!; try done.
  destruct spec_path as [location|]; [|left; split; [by simplify_eq/=|by left]].
  destruct (String.eqb_spec location "") as [->|Hlocation];
    [left; split; [by simplify_eq/=|by right; left]|].
  destruct base_url as [url|].
  2:{ left. split; [|by right; right; left].
      simpl in Hspecs. rewrite andb_false_r in Hspecs. by simplify_eq. }
  destruct (String.eqb_spec url "") as [->|Hurl].
  { left. split; [|by right; right; right].
    simpl in Hspecs. rewrite andb_false_r in Hspecs. by simplify_eq. }
  right. exists location, url. split_and!; try done.
  simpl in Hspecs.
  apply String.eqb_neq in Hlocation, Hurl. rewrite Hlocation, Hurl in Hspecs.
  by simplify_eq/=.
Qed.

Lemma env_bindings_witness :
  Config.openapi_services (JDict []) = [] ∧
  Config.openapi_specs Cases5.env_only (JDict []) = Ok [Cases5.env_binding] ∧
  ∃ spec_path base_url auth_type service_name,
    get_env_var Cases5.env_only "OPENAPI_SPEC_PATH" = Ok spec_path ∧
    get_env_var Cases5.env_only "OPENAPI_BASE_URL" = Ok base_url ∧
    get_env_var Cases5.env_only "OPENAPI_AUTH_TYPE" = Ok auth_type ∧
    get_env_var Cases5.env_only "OPENAPI_SERVICE_NAME" = Ok service_name ∧
    (([Cases5.env_binding] = [] ∧
      (spec_path = None ∨ spec_path = Some "" ∨ base_url = None ∨ base_url = Some "")) ∨
     (∃ location url,
        spec_path = Some location ∧ location ≠ "" ∧
        base_url = Some url ∧ url ≠ "" ∧
        [Cases5.env_binding]
        = [{| Config.service_name := default "default" service_name;
              Config.file_location := JStr location;
              Config.prefix := default "default" service_name;
              Config.auth_type := env_value auth_type;
              Config.base_url := JStr url;
              Config.include_tags := JNull; Config.exclude_tags := JNull;
              Config.include_paths := JNull; Config.exclude_paths := JNull |}])).
Proof.
  assert (H1 : Config.openapi_services (JDict []) = []) by reflexivity.
  assert (H2 : Config.openapi_specs Cases5.env_only (JDict []) = Ok [Cases5.env_binding])
    by (vm_compute; reflexivity).
  split; [exact H1|]. split; [exact H2|].
  exact (env_bindings Cases5.env_only (JDict []) [Cases5.env_binding] H1 H2).
Defined.
